(** * orgfeed: the HTTP handlers of [apis/post_api.py] and [apis/employee_api.py]

    The handlers are thin: each one reads query parameters, validates them,
    and hands over to a collaborator ([post_service], [employee_service],
    [flask_jwt_extended], the helpers of [services] and [models]).  A handler
    is embedded as a program over the calls it makes to these collaborators,
    in the order Python evaluates them; [abort] ends the program with an HTTP
    status.  Running a program against an environment that answers the calls
    yields the trace of calls made and the outcome of the request.

    A Python [str] is held as the bytes of its UTF-8 encoding, so that
    equality of strings is equality of bytes; [str.isdigit] and [int] read
    the code points back and classify them by the Unicode database of the
    interpreter, which is a parameter of the development. *)

From stdpp Require Import gmap strings list.
From Stdlib Require Import ZArith Ascii String.

Local Open Scope string_scope.
Local Open Scope Z_scope.

(** ** Values exchanged with the collaborators *)

(** An employee ID as carried by a token ([get_jwt_identity]). *)
Definition Identity := string.
(** What [get_uuid] returns. *)
Definition UUID := string.
(** What [create_access_token] and [create_refresh_token] return. *)
Definition Token := string.
(** What [get_page] returns. *)
Definition Page := Z.

(** Modelled from the spec: [models/post_model.py] is absent; the members of
    [PostStatus] are those of section 3 (the five the handlers name), looked
    up by name with [PostStatus[...]]. *)
Inductive PostStatus : Type :=
| under_consideration
| posted
| returned_for_improvement
| rejected
| archived.

#[global] Instance PostStatus_eq_dec : EqDecision PostStatus.
Proof. solve_decision. Defined.

Definition PostStatus_members : list PostStatus :=
  [under_consideration; posted; returned_for_improvement; rejected; archived].

Definition PostStatus_name (s : PostStatus) : string :=
  match s with
  | under_consideration => "under_consideration"
  | posted => "posted"
  | returned_for_improvement => "returned_for_improvement"
  | rejected => "rejected"
  | archived => "archived"
  end.

Definition PostStatus_to_nat (s : PostStatus) : nat :=
  match s with
  | under_consideration => 0
  | posted => 1
  | returned_for_improvement => 2
  | rejected => 3
  | archived => 4
  end%nat.

Definition PostStatus_of_nat (n : nat) : option PostStatus :=
  PostStatus_members !! n.

#[global] Program Instance PostStatus_countable : Countable PostStatus :=
  inj_countable PostStatus_to_nat PostStatus_of_nat _.
Next Obligation. by intros []. Qed.

(** [PostStatus[name]]: the member called [name]; [None] is [KeyError]. *)
Definition PostStatus_getitem (name : string) : option PostStatus :=
  List.find (fun s => String.eqb (PostStatus_name s) name) PostStatus_members.

(** Modelled from the spec: [PostFullModel] of [models/post_model.py] is
    absent; a post has the fields of section 3, its date kept as
    (year, month). *)
Record Post : Type := mkPost {
  post_id : UUID;
  author : Identity;
  body : string;
  attachments : list UUID;
  status : PostStatus;
  date : Z * Z
}.

(** Modelled from the spec: [PostCreateModel] of [models/post_model.py] is
    absent; the body of a create request carries the content and the
    optional attachments of section 3. *)
Record PostCreate : Type := mkPostCreate {
  create_body : string;
  create_attachments : list UUID
}.

(** The response model [counted_list_of_posts]. *)
Record CountedPosts : Type := mkCountedPosts {
  posts : list Post;
  pages_count : Z
}.

(** The dict returned by [AuthRefresh.post]. *)
Record TokenPair : Type := mkTokenPair {
  access_token : Token;
  refresh_token : Token;
  user_id : Identity
}.

(** The result of [get_statistics]: subunit name -> (year, month) -> count. *)
Definition Statistics := list (string * list ((Z * Z) * Z)).

(** [flask.request]: the query string as a list of pairs, first value wins. *)
Record Request : Type := mkRequest {
  args : list (string * string)
}.

Fixpoint assoc (k : string) (l : list (string * string)) : option string :=
  match l with
  | [] => None
  | (k', v) :: l' => if String.eqb k' k then Some v else assoc k l'
  end.

(** [request.args.get(key, default)] *)
Definition args_get (request : Request) (key default : string) : string :=
  match assoc key (args request) with
  | Some v => v
  | None => default
  end.

(** [get_uuid] is given the request or one string of a parameter. *)
Inductive UuidSource : Type :=
| of_request (request : Request)
| of_str (s : string).

(** The outcome of a call or of a whole request: a value, or the HTTP error
    raised by [abort]. *)
Inductive Outcome (A : Type) : Type :=
| Returned (a : A)
| Aborted (code : Z) (description : string).
Arguments Returned {A} a.
Arguments Aborted {A} code description.

(** ** Python string helpers *)

(** The ASCII digits '0'..'9'. *)
Definition is_digit (c : ascii) : bool :=
  (48 <=? nat_of_ascii c)%nat && (nat_of_ascii c <=? 57)%nat.

Fixpoint all_digits (s : string) : bool :=
  match s with
  | EmptyString => true
  | String c s' => is_digit c && all_digits s'
  end.

(** The non-empty strings of '0'..'9'. *)
Definition ascii_digits (s : string) : bool :=
  match s with
  | EmptyString => false
  | _ => all_digits s
  end.

(** The number a string of '0'..'9' denotes, continuing from [acc]. *)
Fixpoint int_digits (acc : Z) (s : string) : Z :=
  match s with
  | EmptyString => acc
  | String c s' => int_digits (10 * acc + (Z.of_nat (nat_of_ascii c) - 48)) s'
  end.

(** *** Code points *)

(** Bytes 0x80..0xBF continue a UTF-8 sequence. *)
Definition continuation (b : ascii) : bool :=
  ((128 <=? N_of_ascii b) && (N_of_ascii b <=? 191))%N.

(** U+FFFD *)
Definition replacement : N := 65533%N.

(** The second byte of a sequence that [n0] opens: a continuation byte
    that gives no overlong form, no surrogate and nothing above U+10FFFF. *)
Definition second_byte (n0 : N) (b1 : ascii) : bool :=
  continuation b1
  && (if n0 =? 224 then 160 <=? N_of_ascii b1
      else if n0 =? 237 then N_of_ascii b1 <=? 159
      else if n0 =? 240 then 144 <=? N_of_ascii b1
      else if n0 =? 244 then N_of_ascii b1 <=? 143
      else true)%N.

(** The code points of a string.  Bytes 0x00..0x7F stand for themselves,
    0xC2..0xDF open a sequence of two bytes, 0xE0..0xEF of three, 0xF0..0xF4
    of four.  Bytes that encode no string are read as U+FFFD, one byte at a
    time. *)
Fixpoint decode_utf8 (s : string) : list N :=
  match s with
  | EmptyString => []
  | String b0 s1 =>
      let n0 := N_of_ascii b0 in
      if (n0 <? 128)%N then n0 :: decode_utf8 s1
      else if ((194 <=? n0) && (n0 <=? 223))%N then
        match s1 with
        | String b1 s2 =>
            if second_byte n0 b1
            then ((n0 - 192) * 64 + (N_of_ascii b1 - 128))%N :: decode_utf8 s2
            else replacement :: decode_utf8 s1
        | _ => replacement :: decode_utf8 s1
        end
      else if ((224 <=? n0) && (n0 <=? 239))%N then
        match s1 with
        | String b1 (String b2 s3) =>
            if second_byte n0 b1 && continuation b2
            then (((n0 - 224) * 64 + (N_of_ascii b1 - 128)) * 64
                  + (N_of_ascii b2 - 128))%N :: decode_utf8 s3
            else replacement :: decode_utf8 s1
        | _ => replacement :: decode_utf8 s1
        end
      else if ((240 <=? n0) && (n0 <=? 244))%N then
        match s1 with
        | String b1 (String b2 (String b3 s4)) =>
            if second_byte n0 b1 && continuation b2 && continuation b3
            then ((((n0 - 240) * 64 + (N_of_ascii b1 - 128)) * 64
                   + (N_of_ascii b2 - 128)) * 64
                  + (N_of_ascii b3 - 128))%N :: decode_utf8 s4
            else replacement :: decode_utf8 s1
        | _ => replacement :: decode_utf8 s1
        end
      else replacement :: decode_utf8 s1
  end.

(** The numeric type of a code point in the Unicode database: a decimal
    digit with its value ('3', the Arabic-Indic digit three), a digit that
    is no decimal (superscript two), or neither. *)
Inductive NumericType : Type :=
| Decimal (value : Z)
| Digit
| NoDigit.

(** The Unicode database ([unicodedata], part of the interpreter).  Of its
    content only this much is fixed: below U+0080 the digits are '0'..'9',
    decimals with their usual value; a decimal value is one of 0..9; and
    U+FFFD is no digit. *)
Class Unicode : Type := {
  numeric_type : N → NumericType;
  numeric_type_ascii : ∀ c : N, (c < 128)%N →
    numeric_type c =
      if ((48 <=? c) && (c <=? 57))%N then Decimal (Z.of_N c - 48) else NoDigit;
  numeric_type_decimal : ∀ (c : N) (value : Z),
    numeric_type c = Decimal value → 0 ≤ value ≤ 9;
  numeric_type_replacement : numeric_type replacement = NoDigit
}.

Section Builtins.

Context `{Unicode}.

(** A character [str.isdigit] accepts: a decimal or a digit. *)
Definition char_isdigit (c : N) : bool :=
  match numeric_type c with
  | NoDigit => false
  | _ => true
  end.

(** [str.isdigit]: at least one character, and all of them digits. *)
Definition isdigit (s : string) : bool :=
  match decode_utf8 s with
  | [] => false
  | cs => forallb char_isdigit cs
  end.

(** The number a sequence of decimals denotes, continuing from [acc];
    [None] when a character is no decimal. *)
Fixpoint int_decimals (acc : Z) (cs : list N) : option Z :=
  match cs with
  | [] => Some acc
  | c :: cs' =>
      match numeric_type c with
      | Decimal value => int_decimals (10 * acc + value) cs'
      | _ => None
      end
  end.

(** [int(s)] on decimals with an optional sign; [None] is [ValueError].
    White space and underscores, which [int] also reads, are left out:
    [str.isdigit] accepts neither.  So is the bound that an interpreter may
    put on the number of digits ([sys.set_int_max_str_digits]). *)
Definition int (s : string) : option Z :=
  match decode_utf8 s with
  | [] => None
  | c :: cs =>
      if (c =? 45)%N then
        match cs with [] => None | _ => Z.opp <$> int_decimals 0 cs end
      else if (c =? 43)%N then
        match cs with [] => None | _ => int_decimals 0 cs end
      else int_decimals 0 (c :: cs)
  end.

End Builtins.

(** ** Programs over the collaborators *)

Section Api.

(** [models/employee_model.py] is absent: [EmployeeType] is an enumeration
    whose members are looked up by value with [EmployeeType(value)]; [None]
    is [ValueError]. *)
Context {EmployeeType : Type} `{Countable EmployeeType}.
Context (EmployeeType_call : string → option EmployeeType).
Context `{Unicode}.

(** The response model [full_employee_model], as far as section 3 names it. *)
Record Employee : Type := mkEmployee {
  employee_id : UUID;
  employee_type : EmployeeType;
  employee_subunit : UUID;
  fired : bool
}.

(** The calls a handler makes outside this module, indexed by what they
    return.  Each of them may also raise an HTTP error. *)
Inductive Op : Type → Type :=
| verify_jwt_in_request : Op unit
| verify_jwt_refresh_token_in_request : Op unit
| get_jwt_identity : Op Identity
| create_access_token (identity : Identity) : Op Token
| create_refresh_token (identity : Identity) : Op Token
| get_uuid (src : UuidSource) : Op UUID
| get_page (request : Request) : Op Page
| query_param_to_set (param : string) : Op (list string)
| create_post (caller : Identity) (payload : PostCreate) : Op Post
| set_post_status (caller : Identity) (post : UUID) (new_status : PostStatus) : Op Post
| get_archived_posts (page : Page) : Op CountedPosts
| get_all_employee_posts (employee : UUID) : Op (list Post)
| get_statistics (start_year start_month end_year end_month : Z)
    (subunit_ids : option (list UUID)) : Op Statistics
| get_all_posts (caller : Identity) (page : Page) (statuses : gset PostStatus)
    (reverse : bool) : Op CountedPosts
| get_fired_moderators (subunit : UUID) (types : gset EmployeeType) : Op (list Employee).

Inductive Prog (R : Type) : Type :=
| Ret (r : R)
| Abort (code : Z) (description : string)
| Call {A : Type} (op : Op A) (k : A → Prog R).
#[global] Arguments Ret {R} r.
#[global] Arguments Abort {R} code description.
#[global] Arguments Call {R A} op k.

Fixpoint bind {R S : Type} (p : Prog R) (f : R → Prog S) : Prog S :=
  match p with
  | Ret r => f r
  | Abort code description => Abort code description
  | Call op k => Call op (fun a => bind (k a) f)
  end.

Definition call {A : Type} (op : Op A) : Prog A := Call op Ret.

#[global] Instance Prog_ret : MRet Prog := @Ret.
#[global] Instance Prog_bind : MBind Prog := fun _ _ f p => bind p f.

(** One call made by a handler. *)
Inductive Event : Type :=
| Ev {A : Type} (op : Op A).

(** An environment answers every call. *)
Definition Env : Type := ∀ A : Type, Op A → Outcome A.

(** Run a program: the calls made, in order, and how the request ends.  An
    error raised by a collaborator ends the request with that error. *)
Fixpoint run {R : Type} (env : Env) (p : Prog R) : list Event * Outcome R :=
  match p with
  | Ret r => ([], Returned r)
  | Abort code description => ([], Aborted code description)
  | Call op k =>
      match env _ op with
      | Returned a => let '(trace, out) := run env (k a) in (Ev op :: trace, out)
      | Aborted code description => ([Ev op], Aborted code description)
      end
  end.

(** Service calls that write to the store. *)
Definition is_write_call (e : Event) : bool :=
  match e with
  | Ev (create_post _ _) | Ev (set_post_status _ _ _) => true
  | _ => false
  end.

(** Reads of the [page] query parameter. *)
Definition is_get_page (e : Event) : bool :=
  match e with
  | Ev (get_page _) => true
  | _ => false
  end.

(** The decorators [@jwt_required] and [@jwt_refresh_token_required]. *)
Definition jwt_required {R : Type} (handler : Prog R) : Prog R :=
  call verify_jwt_in_request ≫= fun _ => handler.

Definition jwt_refresh_token_required {R : Type} (handler : Prog R) : Prog R :=
  call verify_jwt_refresh_token_in_request ≫= fun _ => handler.

(** An exception no handler catches: Flask answers 500. *)
Definition uncaught {R : Type} : Prog R := Abort 500 "Internal Server Error".

(** ** apis/post_api.py *)

(** [Post.post], route [/post] *)
Definition Post_post (payload : PostCreate) : Prog (Post * Z) :=
  jwt_required (
    caller ← call get_jwt_identity;
    r ← call (create_post caller payload);
    Ret (r, 201)).

(** [ApprovePost.post], route [/post/approve] *)
Definition ApprovePost_post (request : Request) : Prog (Post * Z) :=
  jwt_required (
    caller ← call get_jwt_identity;
    post ← call (get_uuid (of_request request));
    r ← call (set_post_status caller post posted);
    Ret (r, 201)).

(** [ApprovePost.delete], route [/post/approve] *)
Definition ApprovePost_delete (request : Request) : Prog (Post * Z) :=
  jwt_required (
    caller ← call get_jwt_identity;
    post ← call (get_uuid (of_request request));
    r ← call (set_post_status caller post under_consideration);
    Ret (r, 201)).

(** [ApprovePost.post] of the class bound to route [/post/return] *)
Definition ApprovePost_post_return (request : Request) : Prog (Post * Z) :=
  jwt_required (
    caller ← call get_jwt_identity;
    post ← call (get_uuid (of_request request));
    r ← call (set_post_status caller post returned_for_improvement);
    Ret (r, 201)).

(** [ApprovePost.post] of the class bound to route [/post/reject] *)
Definition ApprovePost_post_reject (request : Request) : Prog (Post * Z) :=
  jwt_required (
    caller ← call get_jwt_identity;
    post ← call (get_uuid (of_request request));
    r ← call (set_post_status caller post rejected);
    Ret (r, 201)).

(** [ArchivePost.post], route [/post/archive] *)
Definition ArchivePost_post (request : Request) : Prog (Post * Z) :=
  jwt_required (
    caller ← call get_jwt_identity;
    post ← call (get_uuid (of_request request));
    r ← call (set_post_status caller post archived);
    Ret (r, 201)).

(** [ArchivePost.get], route [/post/archive] *)
Definition ArchivePost_get (request : Request) : Prog (CountedPosts * Z) :=
  jwt_required (
    page ← call (get_page request);
    r ← call (get_archived_posts page);
    Ret (r, 200)).

(** [ArchivePost.delete], route [/post/archive]: the [try] block looks the
    status up and raises [KeyError] itself on [archived]; the [except]
    branch aborts. *)
Definition ArchivePost_delete (request : Request) : Prog (Post * Z) :=
  jwt_required (
    match PostStatus_getitem (args_get request "status" "") with
    | Some new_status =>
        if decide (new_status = archived) then Abort 400 "Incorrect status value"
        else
          caller ← call get_jwt_identity;
          post ← call (get_uuid (of_request request));
          r ← call (set_post_status caller post new_status);
          Ret (r, 201)
    | None => Abort 400 "Incorrect status value"
    end).

(** [Post.get] of the class bound to route [/post/of_employee] *)
Definition Post_get_of_employee (request : Request) : Prog (list Post * Z) :=
  jwt_required (
    employee ← call (get_uuid (of_request request));
    r ← call (get_all_employee_posts employee);
    Ret (r, 200)).

(** [[get_uuid(e_id) for e_id in ids_raw]] *)
Fixpoint get_uuids (ids_raw : list string) : Prog (list UUID) :=
  match ids_raw with
  | [] => Ret []
  | e_id :: rest =>
      u ← call (get_uuid (of_str e_id));
      us ← get_uuids rest;
      Ret (u :: us)
  end.

(** [int(param)] where a [ValueError] would go uncaught. *)
Definition int_or_raise (param : string) : Prog Z :=
  match int param with
  | Some n => Ret n
  | None => uncaught
  end.

(** Truth value of a string: non-empty. *)
Definition truthy (s : string) : bool := negb (String.eqb s "").

(** [PostStat.get], route [/post/statistics].  In the call
    [get_statistics( *(int(param) for ...), subunit_ids=...)] the keyword
    argument is evaluated first: the starred generator is only run when the
    call is made, so the [get_uuid] calls come before the conversions. *)
Definition PostStat_get (request : Request) : Prog (Statistics * Z) :=
  jwt_required (
    let start_year := args_get request "start_year" "" in
    let start_month := args_get request "start_month" "" in
    let end_year := args_get request "end_year" "" in
    let end_month := args_get request "end_month" "" in
    ids_raw ← call (query_param_to_set "ids");
    if negb (forallb isdigit [start_year; start_month; end_year; end_month])
    then Abort 400 "Date values must be integers"
    else
      subunit_ids ←
        (if negb (bool_decide (ids_raw = [])) && forallb truthy ids_raw
         then get_uuids ids_raw ≫= fun us => Ret (Some us)
         else Ret None);
      sy ← int_or_raise start_year;
      sm ← int_or_raise start_month;
      ey ← int_or_raise end_year;
      em ← int_or_raise end_month;
      r ← call (get_statistics sy sm ey em subunit_ids);
      Ret (r, 200)).

(** The loop of [PostModeration.get] over [statuses_raw]. *)
Fixpoint moderation_statuses (statuses_raw : list string)
    (statuses : gset PostStatus) : Prog (gset PostStatus) :=
  match statuses_raw with
  | [] => Ret statuses
  | status :: rest =>
      if truthy status then
        match PostStatus_getitem status with
        | Some s => moderation_statuses rest (statuses ∪ {[s]})
        | None => Abort 422 ("Incorrect status value '" ++ status ++ "'")
        end
      else moderation_statuses rest statuses
  end.

(** [PostModeration.get], route [/post/moderation] *)
Definition PostModeration_get (request : Request) : Prog (CountedPosts * Z) :=
  jwt_required (
    statuses_raw ← call (query_param_to_set "statuses");
    statuses ← moderation_statuses statuses_raw ∅;
    caller ← call get_jwt_identity;
    page ← call (get_page request);
    r ← call (get_all_posts caller page statuses
                (String.eqb (args_get request "reverse" "true") "true"));
    Ret (r, 200)).

(** ** apis/employee_api.py *)

(** [AuthRefresh.post], route [/employee/auth/refresh] *)
Definition AuthRefresh_post : Prog (TokenPair * Z) :=
  jwt_refresh_token_required (
    identity ← call get_jwt_identity;
    access ← call (create_access_token identity);
    refresh ← call (create_refresh_token identity);
    Ret (mkTokenPair access refresh identity, 200)).

(** The loop of the [/employee/fired] handler over [types_raw]. *)
Fixpoint fired_types (types_raw : list string)
    (types : gset EmployeeType) : Prog (gset EmployeeType) :=
  match types_raw with
  | [] => Ret types
  | employee_type :: rest =>
      match EmployeeType_call employee_type with
      | Some t => fired_types rest (types ∪ {[t]})
      | None => Abort 400 ("Incorrect employee type '" ++ employee_type ++ "'")
      end
  end.

(** [AuthRefresh.get] of the class bound to route [/employee/fired] *)
Definition AuthRefresh_get_fired (request : Request) : Prog (list Employee * Z) :=
  jwt_required (
    types_raw ← call (query_param_to_set "types");
    types ← fired_types types_raw ∅;
    subunit ← call (get_uuid (of_request request));
    r ← call (get_fired_moderators subunit types);
    Ret (r, 200)).

End Api.

Arguments Env EmployeeType {_ _}.
Arguments Event EmployeeType {_ _}.

(** ** The services behind creation and statistics *)

(** Modelled from the spec: [services/post_service.py] and the storage layer
    are absent; the store follows section 3 (a post belongs to a subunit via
    its author), [create_post] follows section 4.3 and [get_statistics]
    section 4.4.  The error texts are those of the handlers' [@api.response]
    lines. *)
Record Subunit : Type := mkSubunit {
  subunit_id : UUID;
  subunit_name : string
}.

(** Modelled from the spec: the storage layer is absent; the store holds the
    posts, the IDs of the attachments, each employee with the subunit they
    belong to, and the subunits (section 3). *)
Record Store : Type := mkStore {
  store_posts : list Post;
  store_attachments : gset UUID;
  store_employees : list (Identity * UUID);
  store_subunits : list Subunit
}.

(** Modelled from the spec: a referenced attachment exists (section 4.3). *)
Definition attachment_exists (st : Store) (a : UUID) : bool :=
  bool_decide (a ∈ store_attachments st).

(** Modelled from the spec: [post_service.create_post] of section 4.3; the
    new ID and the current (year, month) come from outside. *)
Definition post_service_create_post (st : Store) (new_id : UUID) (today : Z * Z)
    (caller : Identity) (payload : PostCreate) : Outcome (Store * Post) :=
  if forallb (attachment_exists st) (create_attachments payload) then
    let post := mkPost new_id caller (create_body payload)
                  (create_attachments payload) under_consideration today in
    Returned (mkStore (post :: store_posts st) (store_attachments st)
                (store_employees st) (store_subunits st), post)
  else Aborted 404 "Attachment not found".

(** Modelled from the spec: a month is within 1..12 (section 4.4). *)
Definition valid_month (month : Z) : bool := ((1 <=? month) && (month <=? 12))%Z.

(** Modelled from the spec: the date (y1, m1) precedes (y2, m2)
    (section 4.4). *)
Definition date_precedes (d1 d2 : Z * Z) : bool :=
  ((d1.1 <? d2.1) || ((d1.1 =? d2.1) && (d1.2 <? d2.2)))%Z.

(** Months counted from January of year 0, and back. *)
Definition month_index (d : Z * Z) : Z := 12 * d.1 + (d.2 - 1).

Definition month_of_index (i : Z) : Z * Z := (i `div` 12, i `mod` 12 + 1).

(** Modelled from the spec: every (year, month) of the inclusive range from
    [first] to [last] (section 4.4). *)
Definition months_between (first last : Z * Z) : list (Z * Z) :=
  month_of_index <$> seqZ (month_index first) (month_index last - month_index first + 1).

(** Modelled from the spec: a post belongs to the subunit of its author
    (section 3); the posts of one subunit dated in one month are counted
    (section 4.4). *)
Definition subunit_of_author (st : Store) (employee : Identity) : option UUID :=
  snd <$> List.find (fun row => String.eqb row.1 employee) (store_employees st).

Definition post_in_bucket (st : Store) (subunit : UUID) (month : Z * Z) (p : Post) : bool :=
  bool_decide (subunit_of_author st (author p) = Some subunit)
  && bool_decide (date p = month).

Definition count_posts (st : Store) (subunit : UUID) (month : Z * Z) : Z :=
  Z.of_nat (List.length (List.filter (post_in_bucket st subunit month) (store_posts st))).

(** Modelled from the spec: the subunit filter restricts to the given set
    and defaults to all subunits (section 4.4). *)
Definition selected_subunits (st : Store) (subunit_ids : option (list UUID)) : list Subunit :=
  match subunit_ids with
  | None => store_subunits st
  | Some ids => List.filter (fun su => bool_decide (subunit_id su ∈ ids)) (store_subunits st)
  end.

(** Modelled from the spec: [post_service.get_statistics] of section 4.4. *)
Definition post_service_get_statistics (st : Store)
    (start_year start_month end_year end_month : Z)
    (subunit_ids : option (list UUID)) : Outcome Statistics :=
  if negb (valid_month start_month && valid_month end_month)
     || date_precedes (end_year, end_month) (start_year, start_month)
  then Aborted 422 "Invalid date given"
  else
    Returned ((fun su =>
                 (subunit_name su,
                  (fun month => (month, count_posts st (subunit_id su) month))
                    <$> months_between (start_year, start_month) (end_year, end_month)))
              <$> selected_subunits st subunit_ids).

(** Modelled from the spec: [models.query_param_to_set] is absent; the
    parameter descriptions of the handlers call its values "separated by
    commas": the parameter, empty when absent, is split at every comma. *)
Fixpoint split_commas (s : string) : list string :=
  match s with
  | EmptyString => [""]
  | String c s' =>
      if Ascii.eqb c "," then "" :: split_commas s'
      else match split_commas s' with
           | [] => [String c ""]
           | w :: ws => String c w :: ws
           end
  end.

(** Modelled from the spec: [models.query_param_to_set] on this reading, the
    set listed without repetition. *)
Definition models_query_param_to_set (request : Request) (param : string) : list string :=
  remove_dups (split_commas (args_get request param "")).

(** A service result next to the status code the handler returns with it. *)
Definition with_code {A : Type} (code : Z) (o : Outcome A) : Outcome (A * Z) :=
  match o with
  | Returned a => Returned (a, code)
  | Aborted c d => Aborted c d
  end.

Section Environments.

Context {EmployeeType : Type} `{Countable EmployeeType}.

(** [base], with [create_post] and [get_statistics] answered from the store. *)
Definition store_env (base : Env EmployeeType) (st : Store) (new_id : UUID)
    (today : Z * Z) : Env EmployeeType :=
  fun A op =>
    match op in Op A return Outcome A with
    | create_post caller payload =>
        match post_service_create_post st new_id today caller payload with
        | Returned (_, post) => Returned post
        | Aborted c d => Aborted c d
        end
    | get_statistics sy sm ey em ids => post_service_get_statistics st sy sm ey em ids
    | op' => base _ op'
    end.

(** [base], with [query_param_to_set] answered from the request. *)
Definition request_env (base : Env EmployeeType) (request : Request) : Env EmployeeType :=
  fun A op =>
    match op in Op A return Outcome A with
    | query_param_to_set param => Returned (models_query_param_to_set request param)
    | op' => base _ op'
    end.

(** What [PostStat.get] passes as [subunit_ids] when the [ids] set is
    [ids_raw]: [None] for an empty set or one holding the empty string, else
    what [get_uuid] returns for each element. *)
Definition subunit_filter (env : Env EmployeeType) (ids_raw : list string)
    (subunit_ids : option (list UUID)) : Prop :=
  match subunit_ids with
  | None => ids_raw = [] ∨ ("" ∈ ids_raw)
  | Some us =>
      ids_raw ≠ [] ∧ ("" ∉ ids_raw)
      ∧ Forall2 (fun e_id u => env _ (get_uuid (of_str e_id)) = Returned u) ids_raw us
  end.

(** The [get_uuid] calls that resolving the filter makes. *)
Definition uuid_calls (ids_raw : list string)
    (subunit_ids : option (list UUID)) : list (Event EmployeeType) :=
  match subunit_ids with
  | None => []
  | Some _ => (fun e_id => Ev (get_uuid (of_str e_id))) <$> ids_raw
  end.

(** A listing handler reads the page number on every request it answers. *)
Definition reads_page {R : Type}
    (handler : Request → Prog (EmployeeType:=EmployeeType) R) : Prop :=
  ∀ (env : Env EmployeeType) request (trace : list (Event EmployeeType)) r,
    run env (handler request) = (trace, Returned r) →
    existsb is_get_page trace = true.

End Environments.

(** ** A small organisation to run the handlers against *)

Inductive DemoType : Type := demo_admin | demo_moderator | demo_user.

#[global] Instance DemoType_eq_dec : EqDecision DemoType.
Proof. solve_decision. Defined.

Definition DemoType_to_nat (t : DemoType) : nat :=
  match t with demo_admin => 0 | demo_moderator => 1 | demo_user => 2 end%nat.

Definition DemoType_of_nat (n : nat) : option DemoType :=
  [demo_admin; demo_moderator; demo_user] !! n.

#[global] Program Instance DemoType_countable : Countable DemoType :=
  inj_countable DemoType_to_nat DemoType_of_nat _.
Next Obligation. by intros []. Qed.

Definition DemoType_call (value : string) : option DemoType :=
  if String.eqb value "admin" then Some demo_admin
  else if String.eqb value "moderator" then Some demo_moderator
  else if String.eqb value "user" then Some demo_user
  else None.

(** An excerpt of the Unicode database: the ASCII digits, the Arabic-Indic
    digits U+0660..U+0669 (decimals), and the superscripts U+00B2, U+00B3
    and U+00B9 (digits that are no decimals). *)
Definition demo_numeric_type (c : N) : NumericType :=
  if (c <? 128)%N then
    if ((48 <=? c) && (c <=? 57))%N then Decimal (Z.of_N c - 48) else NoDigit
  else if ((1632 <=? c) && (c <=? 1641))%N then Decimal (Z.of_N c - 1632)
  else if ((c =? 178) || (c =? 179) || (c =? 185))%N then Digit
  else NoDigit.

Program Definition demo_unicode : Unicode :=
  {| numeric_type := demo_numeric_type |}.
Next Obligation.
  intros c Hc. unfold demo_numeric_type.
  by destruct (N.ltb_spec c 128); [|lia].
Qed.
Next Obligation.
  intros c value. unfold demo_numeric_type.
  destruct (N.ltb_spec c 128).
  - destruct (N.leb_spec 48 c), (N.leb_spec c 57); simpl; try done.
    intros [= <-]. lia.
  - destruct (N.leb_spec 1632 c), (N.leb_spec c 1641); simpl;
      try (by destruct ((c =? 178) || (c =? 179) || (c =? 185))%N).
    intros [= <-]. lia.
Qed.
Next Obligation. reflexivity. Qed.

(** The Arabic-Indic digit three, U+0663, and superscript two, U+00B2. *)
Definition arabic_indic_three : string :=
  String (ascii_of_nat 217) (String (ascii_of_nat 163) "").

Definition superscript_two : string :=
  String (ascii_of_nat 194) (String (ascii_of_nat 178) "").

Definition demo_post (id : UUID) (s : PostStatus) : Post :=
  mkPost id "e-1" "hello" [] s (2020, 11).

(** Every token is valid and belongs to employee [e-1]; [get_uuid] hands
    back the [id] parameter or the string it is given. *)
Definition demo_base : Env DemoType :=
  fun A op =>
    match op in Op A return Outcome A with
    | verify_jwt_in_request => Returned tt
    | verify_jwt_refresh_token_in_request => Returned tt
    | get_jwt_identity => Returned "e-1"
    | create_access_token identity => Returned ("access:" ++ identity)
    | create_refresh_token identity => Returned ("refresh:" ++ identity)
    | get_uuid (of_request request) => Returned (args_get request "id" "")
    | get_uuid (of_str s) => Returned s
    | get_page request => Returned 1
    | query_param_to_set _ => Returned []
    | create_post caller payload =>
        Returned (mkPost "p-new" caller (create_body payload)
                    (create_attachments payload) under_consideration (2020, 11))
    | set_post_status _ post s => Returned (demo_post post s)
    | get_archived_posts _ => Returned (mkCountedPosts [demo_post "p-1" archived] 1)
    | get_all_employee_posts _ => Returned [demo_post "p-1" posted]
    | get_statistics _ _ _ _ _ => Returned []
    | get_all_posts _ _ _ _ => Returned (mkCountedPosts [] 0)
    | get_fired_moderators _ _ => Returned []
    end.

Definition demo_env (request : Request) : Env DemoType :=
  request_env demo_base request.

Definition demo_store : Store :=
  mkStore
    (replicate 10 (mkPost "p" "e-1" "news" [] posted (2020, 11))
     ++ [mkPost "q" "e-2" "other" [] posted (2020, 12)])
    {["a-1"]}
    [("e-1", "s-1"); ("e-2", "s-2")]
    [mkSubunit "s-1" "IT department"; mkSubunit "s-2" "Marketing department"].

Definition demo_store_env (request : Request) : Env DemoType :=
  store_env (demo_env request) demo_store "p-new" (2020, 11).

(** Requests to run. *)
Definition demo_unarchive_archived : Request :=
  mkRequest [("id", "p-7"); ("status", "archived")].

Definition demo_unarchive_posted : Request :=
  mkRequest [("id", "p-7"); ("status", "posted")].

Definition demo_moderate : Request := mkRequest [("id", "p-7")].

Definition demo_create : PostCreate := mkPostCreate "hello" ["a-1"].

Definition demo_create_missing : PostCreate := mkPostCreate "hello" ["a-404"].

Definition demo_statistics : Request :=
  mkRequest [("start_year", "2020"); ("start_month", "11");
             ("end_year", "2020"); ("end_month", "12"); ("ids", "s-1")].

Definition demo_statistics_all : Request :=
  mkRequest [("start_year", "2020"); ("start_month", "11");
             ("end_year", "2020"); ("end_month", "12")].

Definition demo_statistics_reversed : Request :=
  mkRequest [("start_year", "2020"); ("start_month", "12");
             ("end_year", "2020"); ("end_month", "11"); ("ids", "s-1")].

Definition demo_statistics_negative : Request :=
  mkRequest [("start_year", "2020"); ("start_month", "-1");
             ("end_year", "2020"); ("end_month", "12")].

Definition demo_statistics_empty_id : Request :=
  mkRequest [("start_year", "2020"); ("start_month", "11");
             ("end_year", "2020"); ("end_month", "12"); ("ids", "s-1,")].

Definition demo_statistics_arabic : Request :=
  mkRequest [("start_year", arabic_indic_three); ("start_month", "11");
             ("end_year", "2020"); ("end_month", "12")].

Definition demo_statistics_superscript : Request :=
  mkRequest [("start_year", superscript_two); ("start_month", "11");
             ("end_year", "2020"); ("end_month", "12"); ("ids", "s-1")].

Definition demo_moderation : Request :=
  mkRequest [("statuses", "posted,,rejected"); ("page", "1")].

Definition demo_moderation_bad : Request :=
  mkRequest [("statuses", "posted,draft"); ("page", "1")].

Definition demo_fired : Request :=
  mkRequest [("types", "admin,moderator"); ("id", "s-1")].

Definition demo_fired_bad : Request :=
  mkRequest [("types", "admin,boss"); ("id", "s-1")].

Definition demo_of_employee : Request := mkRequest [("id", "e-1")].

(** ** The remaining handlers *)

#[local] Set Warnings "-register-all".

(** A JSON value: the body of a request as [api.payload] hands it over, and
    what a handler returns unmarshalled. *)
Inductive Json : Type :=
| JNull
| JBool (b : bool)
| JNumber (n : Z)
| JString (s : string)
| JArray (l : list Json)
| JObject (l : list (string * Json)).

(** [api.payload], passed on as keyword arguments. *)
Definition Payload := list (string * Json).

Section MoreApi.

Context {EmployeeType : Type} `{Countable EmployeeType}.

(** Every call of the two API modules: those of the handlers above, and the
    services the remaining handlers call. *)
Inductive AllOp : Type → Type :=
| shared {A : Type} (op : Op (EmployeeType:=EmployeeType) A) : AllOp A
| get_employee (employee : UUID) : AllOp (Employee (EmployeeType:=EmployeeType))
| edit_employee (caller : Identity) (employee : UUID) (payload : Payload) : AllOp (Employee (EmployeeType:=EmployeeType))
| register_employee (caller : Identity) (payload : Payload) : AllOp (Employee (EmployeeType:=EmployeeType))
| get_token (payload : Payload) : AllOp TokenPair
| get_multiple_employees (ids : list string) : AllOp (list (Employee (EmployeeType:=EmployeeType)))
| edit_post (caller : Identity) (post : UUID) (payload : Payload) : AllOp Post
| get_post (post : UUID) : AllOp Post
| delete_post (caller : Identity) (post : UUID) : AllOp Json.

Inductive Handler (R : Type) : Type :=
| Return (r : R)
| Raise (code : Z) (description : string)
| Invoke {A : Type} (op : AllOp A) (k : A → Handler R).
#[global] Arguments Return {R} r.
#[global] Arguments Raise {R} code description.
#[global] Arguments Invoke {R A} op k.

Fixpoint handler_bind {R S : Type} (h : Handler R) (f : R → Handler S) : Handler S :=
  match h with
  | Return r => f r
  | Raise code description => Raise code description
  | Invoke op k => Invoke op (fun a => handler_bind (k a) f)
  end.

Definition invoke {A : Type} (op : AllOp A) : Handler A := Invoke op Return.

#[global] Instance Handler_ret : MRet Handler := @Return.
#[global] Instance Handler_bind : MBind Handler := fun _ _ f h => handler_bind h f.

(** A handler of the first part, over all calls. *)
Fixpoint lift {R : Type} (p : Prog R) : Handler R :=
  match p with
  | Ret r => Return r
  | Abort code description => Raise code description
  | Call op k => Invoke (shared op) (fun a => lift (k a))
  end.

Inductive Invocation : Type :=
| Inv {A : Type} (op : AllOp A).

Definition lift_event (e : Event EmployeeType) : Invocation :=
  match e with
  | Ev op => Inv (shared op)
  end.

(** A world answers every call; [restrict] keeps its answers to the calls
    of the first part. *)
Definition World : Type := ∀ A : Type, AllOp A → Outcome A.

Definition restrict (world : World) : Env EmployeeType :=
  fun A op => world A (shared op).

Fixpoint serve {R : Type} (world : World) (h : Handler R) : list Invocation * Outcome R :=
  match h with
  | Return r => ([], Returned r)
  | Raise code description => ([], Aborted code description)
  | Invoke op k =>
      match world _ op with
      | Returned a => let '(trace, out) := serve world (k a) in (Inv op :: trace, out)
      | Aborted code description => ([Inv op], Aborted code description)
      end
  end.

(** Calls to [post_service] and [employee_service]. *)
Definition is_service (i : Invocation) : bool :=
  match i with
  | Inv (shared (create_post _ _)) | Inv (shared (set_post_status _ _ _))
  | Inv (shared (get_archived_posts _)) | Inv (shared (get_all_employee_posts _))
  | Inv (shared (get_statistics _ _ _ _ _)) | Inv (shared (get_all_posts _ _ _ _))
  | Inv (shared (get_fired_moderators _ _)) => true
  | Inv (shared _) => false
  | Inv _ => true
  end.

(** The token checks of [flask_jwt_extended]. *)
Definition is_token_check (i : Invocation) : bool :=
  match i with
  | Inv (shared verify_jwt_in_request)
  | Inv (shared verify_jwt_refresh_token_in_request) => true
  | _ => false
  end.

(** No call comes after a call to a service. *)
Definition no_call_after_service (trace : list Invocation) : bool :=
  forallb (fun i => negb (is_service i)) (removelast trace).

(** The dates handed to [get_statistics], if the call is one. *)
Definition statistics_dates (e : Event EmployeeType) : option (Z * Z * Z * Z) :=
  match e with
  | Ev (get_statistics sy sm ey em _) => Some (sy, sm, ey, em)
  | _ => None
  end.

(** The decorator [@jwt_required] on a handler over all calls. *)
Definition with_jwt_required {R : Type} (handler : Handler R) : Handler R :=
  invoke (shared verify_jwt_in_request) ≫= fun _ => handler.

(** *** apis/employee_api.py *)

(** [Employee.get], route [/employee] *)
Definition Employee_get (request : Request) : Handler (Employee * Z) :=
  with_jwt_required (
    employee ← invoke (shared (get_uuid (of_request request)));
    r ← invoke (get_employee employee);
    Return (r, 200)).

(** [Employee.put], route [/employee] *)
Definition Employee_put (request : Request) (payload : Payload) : Handler (Employee * Z) :=
  with_jwt_required (
    caller ← invoke (shared get_jwt_identity);
    employee ← invoke (shared (get_uuid (of_request request)));
    r ← invoke (edit_employee caller employee payload);
    Return (r, 201)).

(** [Employee.post], route [/employee] *)
Definition Employee_post (payload : Payload) : Handler (Employee * Z) :=
  with_jwt_required (
    caller ← invoke (shared get_jwt_identity);
    r ← invoke (register_employee caller payload);
    Return (r, 201)).

(** [Auth.post], route [/employee/auth]: no decorator checks a token. *)
Definition Auth_post (payload : Payload) : Handler (TokenPair * Z) :=
  r ← invoke (get_token payload);
  Return (r, 200).

(** [EmployeeId.get], route [/employee/id] *)
Definition EmployeeId_get : Handler (Json * Z) :=
  with_jwt_required (
    identity ← invoke (shared get_jwt_identity);
    Return (JObject [("id", JString identity)], 200)).

(** The loop of the [/employee/multiple] handler: each ID goes through
    [get_uuid], whose result is dropped. *)
Fixpoint multiple_check_ids (ids : list string) : Handler unit :=
  match ids with
  | [] => Return tt
  | employee_id :: rest =>
      invoke (shared (get_uuid (of_str employee_id))) ≫= fun _ =>
      multiple_check_ids rest
  end.

(** [AuthRefresh.get] of the class bound to route [/employee/multiple] *)
Definition AuthRefresh_get_multiple : Handler (list Employee * Z) :=
  with_jwt_required (
    ids ← invoke (shared (query_param_to_set "ids"));
    _ ← multiple_check_ids ids;
    r ← invoke (get_multiple_employees ids);
    Return (r, 200)).

(** *** apis/post_api.py *)

(** [Post.put], route [/post] *)
Definition Post_put (request : Request) (payload : Payload) : Handler (Post * Z) :=
  with_jwt_required (
    caller ← invoke (shared get_jwt_identity);
    post ← invoke (shared (get_uuid (of_request request)));
    r ← invoke (edit_post caller post payload);
    Return (r, 201)).

(** [Post.get], route [/post] *)
Definition Post_get (request : Request) : Handler (Post * Z) :=
  with_jwt_required (
    post ← invoke (shared (get_uuid (of_request request)));
    r ← invoke (get_post post);
    Return (r, 200)).

(** [Post.delete], route [/post] *)
Definition Post_delete (request : Request) : Handler (Json * Z) :=
  with_jwt_required (
    caller ← invoke (shared get_jwt_identity);
    post ← invoke (shared (get_uuid (of_request request)));
    r ← invoke (delete_post caller post);
    Return (r, 201)).

(** The [enum] documented for [status] at [ArchivePost.delete]:
    [[i.name for i in PostStatus if i != PostStatus.archived]] *)
Definition unarchive_status_enum : list string :=
  PostStatus_name <$> List.filter (fun i => bool_decide (i ≠ archived)) PostStatus_members.

(** The allowed values documented for [statuses] at [PostModeration.get]:
    [[status.name for status in PostStatus]] *)
Definition moderation_status_names : list string :=
  PostStatus_name <$> PostStatus_members.

End MoreApi.

Arguments World EmployeeType {_ _}.
Arguments Invocation EmployeeType {_ _}.

(** Worlds over the small organisation. *)
Definition demo_world (env : Env DemoType) : World DemoType :=
  fun A op =>
    match op in AllOp A return Outcome A with
    | shared op' => env _ op'
    | get_employee employee => Returned (mkEmployee employee demo_user "s-1" false)
    | edit_employee _ employee _ => Returned (mkEmployee employee demo_user "s-1" false)
    | register_employee _ _ => Returned (mkEmployee "e-new" demo_user "s-1" false)
    | get_token _ => Returned (mkTokenPair "access:e-1" "refresh:e-1" "e-1")
    | get_multiple_employees ids =>
        Returned ((fun id => mkEmployee id demo_user "s-1" false) <$> ids)
    | edit_post _ post _ => Returned (demo_post post under_consideration)
    | get_post post => Returned (demo_post post posted)
    | delete_post _ _ => Returned JNull
    end.

(** No token comes with the request. *)
Definition demo_no_token_env (request : Request) : Env DemoType :=
  fun A op =>
    match op in Op A return Outcome A with
    | verify_jwt_in_request => Aborted 401 "Missing Authorization Header"
    | verify_jwt_refresh_token_in_request => Aborted 401 "Missing Authorization Header"
    | op' => demo_env request _ op'
    end.

(** [get_uuid] turns down the string [not-an-id]. *)
Definition demo_strict_env (request : Request) : Env DemoType :=
  fun A op =>
    match op in Op A return Outcome A with
    | get_uuid (of_str s) =>
        if String.eqb s "not-an-id" then Aborted 400 "Invalid ID" else Returned s
    | op' => demo_env request _ op'
    end.

Definition demo_multiple : Request := mkRequest [("ids", "e-1,e-2")].

Definition demo_multiple_bad : Request := mkRequest [("ids", "e-1,not-an-id,e-2")].

Definition demo_statistics_bad_id : Request :=
  mkRequest [("start_year", "2020"); ("start_month", "11");
             ("end_year", "2020"); ("end_month", "12"); ("ids", "s-1,not-an-id")].

Definition demo_moderation_forward : Request :=
  mkRequest [("statuses", "posted"); ("page", "1"); ("reverse", "false")].

(** ** Properties *)

Lemma PostStatus_getitem_Some (name : string) (s : PostStatus) :
  PostStatus_getitem name = Some s ↔ PostStatus_name s = name.
Proof.
  split.
  - intros Hfind. apply List.find_some in Hfind as [_ Heq].
    by apply String.eqb_eq in Heq.
  - intros <-. by destruct s.
Qed.

Lemma PostStatus_getitem_None (name : string) :
  PostStatus_getitem name = None ↔ ∀ s, PostStatus_name s ≠ name.
Proof.
  split.
  - intros Hnone s Hname. apply PostStatus_getitem_Some in Hname. congruence.
  - intros Hno. destruct (PostStatus_getitem name) as [s|] eqn:Hs; [|done].
    apply PostStatus_getitem_Some in Hs. by destruct (Hno s).
Qed.

Lemma all_digits_In (s : string) :
  all_digits s = true ↔ ∀ c, In c (list_ascii_of_string s) → is_digit c = true.
Proof.
  induction s as [|c s IH]; simpl.
  - split; [intros _ c []|done].
  - rewrite andb_true_iff, IH. split.
    + intros [Hc Hs] c' [<-|Hin]; auto.
    + intros Hall. split; [apply Hall; by left|]. intros c' Hin. apply Hall. by right.
Qed.

Lemma forallb_false_elem {A : Type} (f : A → bool) (l : list A) :
  forallb f l = false ↔ ∃ x, x ∈ l ∧ f x = false.
Proof.
  induction l as [|a l IH]; simpl.
  - split; [done|]. by intros (x & Hin%elem_of_nil & _).
  - rewrite andb_false_iff, IH. split.
    + intros [Ha|(x & Hin & Hx)].
      * exists a. split; [by left|done].
      * exists x. split; [by right|done].
    + intros (x & Hin & Hx). apply elem_of_cons in Hin as [->|Hin]; [by left|].
      right. by exists x.
Qed.

Lemma N_of_ascii_nat (c : ascii) : N_of_ascii c = N.of_nat (nat_of_ascii c).
Proof. unfold nat_of_ascii. by rewrite N2Nat.id. Qed.

Lemma is_digit_range (c : ascii) :
  is_digit c = ((48 <=? N_of_ascii c) && (N_of_ascii c <=? 57))%N.
Proof.
  unfold is_digit. rewrite N_of_ascii_nat.
  destruct (Nat.leb_spec 48 (nat_of_ascii c)), (N.leb_spec 48 (N.of_nat (nat_of_ascii c)));
    destruct (Nat.leb_spec (nat_of_ascii c) 57), (N.leb_spec (N.of_nat (nat_of_ascii c)) 57);
    simpl; try done; lia.
Qed.

(** Every byte opens at least one code point. *)
Lemma decode_utf8_nil (s : string) : decode_utf8 s = [] ↔ s = "".
Proof.
  split; [|by intros ->].
  destruct s as [|b0 s1]; [done|]. cbn [decode_utf8]. cbv zeta.
  repeat first [ discriminate
               | match goal with
                 | |- context [if ?c then _ else _] => destruct c
                 | |- context [match ?s with EmptyString => _ | String _ _ => _ end] =>
                     destruct s
                 end ].
Qed.

(** On a string of '0'..'9' the code points are the bytes. *)
Lemma decode_utf8_all_digits (s : string) :
  all_digits s = true → decode_utf8 s = N_of_ascii <$> list_ascii_of_string s.
Proof.
  induction s as [|c s IH]; [done|]. cbn [all_digits]. intros Hd.
  apply andb_true_iff in Hd as [Hc Hs].
  rewrite is_digit_range in Hc. apply andb_true_iff in Hc as [_ Hhi].
  apply N.leb_le in Hhi.
  cbn [decode_utf8 list_ascii_of_string fmap list_fmap]. cbv zeta.
  destruct (N.ltb_spec (N_of_ascii c) 128) as [_|?]; [|lia].
  by rewrite IH.
Qed.

(** A byte below 0x80 is a code point of the string wherever it stands. *)
Lemma decode_utf8_ascii_byte (s : string) (b : ascii) :
  In b (list_ascii_of_string s) → (N_of_ascii b < 128)%N →
  N_of_ascii b ∈ decode_utf8 s.
Proof.
  intros Hin Hb. remember (String.length s) as n eqn:Hn.
  revert s Hn Hin. induction (lt_wf n) as [n _ IH]. intros s -> Hin.
  assert (Hcont : ∀ b', continuation b' = true → b' ≠ b).
  { intros b' Hc ->. unfold continuation in Hc.
    apply andb_true_iff in Hc as [Hc _]. apply N.leb_le in Hc. lia. }
  assert (Hrest : ∀ s', (String.length s' < String.length s)%nat →
                   In b (list_ascii_of_string s') → N_of_ascii b ∈ decode_utf8 s').
  { intros s' Hlt Hin'. by eapply IH. }
  clear IH. destruct s as [|b0 s1]; [done|].
  cbn [decode_utf8]. cbv zeta.
  destruct (N.ltb_spec (N_of_ascii b0) 128) as [Hlow|Hhigh].
  { destruct Hin as [->|Hin]; [by left|]. right. apply Hrest; [simpl; lia|done]. }
  destruct Hin as [->|Hin]; [lia|].
  assert (Hs1 : N_of_ascii b ∈ decode_utf8 s1) by (apply Hrest; [simpl; lia|done]).
  repeat match goal with
         | |- _ ∈ replacement :: decode_utf8 s1 => by right
         | |- context [if ?c then _ else _] => destruct c eqn:?
         | |- context [match ?s with EmptyString => _ | String _ _ => _ end] =>
             destruct s
         end;
    unfold second_byte in *;
    repeat match goal with
           | Hc : _ && _ = true |- _ => apply andb_true_iff in Hc as [? ?]
           end;
    (right; apply Hrest; [simpl; lia|]);
    repeat match goal with
           | Hi : In _ (list_ascii_of_string (String ?b' _)) |- _ =>
               destruct Hi as [Heq|Hi]; [by destruct (Hcont b')|]
           end;
    done.
Qed.

Section BuiltinsProperties.

Context `{Unicode}.

Lemma is_digit_numeric_type (c : ascii) :
  is_digit c = true →
  numeric_type (N_of_ascii c) = Decimal (Z.of_nat (nat_of_ascii c) - 48).
Proof.
  intros Hc. rewrite is_digit_range in Hc.
  pose proof Hc as Hr. apply andb_true_iff in Hr as [_ Hhi]. apply N.leb_le in Hhi.
  rewrite numeric_type_ascii by lia. rewrite Hc.
  by rewrite N_of_ascii_nat, nat_N_Z.
Qed.

Lemma is_digit_false_numeric_type (c : ascii) :
  (N_of_ascii c < 128)%N → is_digit c = false → numeric_type (N_of_ascii c) = NoDigit.
Proof.
  intros Hlow Hc. rewrite is_digit_range in Hc.
  by rewrite numeric_type_ascii, Hc.
Qed.

(** [str.isdigit] fails on the empty string and on a string with a
    character that is no digit, and on no other. *)
Lemma isdigit_false_iff (s : string) :
  isdigit s = false ↔
  s = "" ∨ ∃ c, c ∈ decode_utf8 s ∧ numeric_type c = NoDigit.
Proof.
  unfold isdigit. split.
  - destruct (decode_utf8 s) as [|c cs] eqn:Hcs.
    + intros _. left. by apply decode_utf8_nil.
    + intros Hf. right. apply forallb_false_elem in Hf as (c' & Hin & Hc').
      exists c'. split; [done|]. unfold char_isdigit in Hc'.
      by destruct (numeric_type c').
  - intros [->|(c & Hin & Hk)]; [done|].
    destruct (decode_utf8 s) as [|c0 cs] eqn:Hcs; [done|].
    apply forallb_false_elem. exists c. split; [done|].
    unfold char_isdigit. by rewrite Hk.
Qed.

Lemma forallb_char_isdigit_digits (l : list ascii) :
  (∀ c, In c l → is_digit c = true) →
  forallb char_isdigit (N_of_ascii <$> l) = true.
Proof.
  intros Hall. apply forallb_forall. intros n Hin.
  apply list_elem_of_In, list_elem_of_fmap in Hin as (c & -> & Hc).
  unfold char_isdigit. rewrite is_digit_numeric_type; [done|].
  apply Hall. by apply list_elem_of_In.
Qed.

(** [str.isdigit] accepts the non-empty strings of '0'..'9'. *)
Lemma ascii_digits_isdigit (s : string) : ascii_digits s = true → isdigit s = true.
Proof.
  intros Hd. destruct s as [|c s]; [done|]. unfold ascii_digits in Hd.
  unfold isdigit. rewrite (decode_utf8_all_digits _ Hd).
  cbn [list_ascii_of_string fmap list_fmap].
  change (forallb char_isdigit (N_of_ascii <$> c :: list_ascii_of_string s) = true).
  apply forallb_char_isdigit_digits. by apply (all_digits_In (String c s)).
Qed.

Lemma int_decimals_digits (s : string) (acc : Z) :
  all_digits s = true →
  int_decimals acc (N_of_ascii <$> list_ascii_of_string s) = Some (int_digits acc s).
Proof.
  revert acc. induction s as [|c s IH]; intros acc Hd; [done|].
  cbn [all_digits] in Hd. apply andb_true_iff in Hd as [Hc Hs].
  cbn [list_ascii_of_string fmap list_fmap int_decimals int_digits].
  rewrite (is_digit_numeric_type _ Hc). by apply IH.
Qed.

(** [int] reads a non-empty string of '0'..'9' as the number it denotes. *)
Lemma ascii_digits_int (s : string) :
  ascii_digits s = true → int s = Some (int_digits 0 s).
Proof.
  intros Hd. destruct s as [|c s]; [done|]. unfold ascii_digits in Hd.
  unfold int. rewrite (decode_utf8_all_digits _ Hd).
  cbn [list_ascii_of_string fmap list_fmap].
  pose proof Hd as Hc. cbn [all_digits] in Hc. apply andb_true_iff in Hc as [Hc _].
  rewrite is_digit_range in Hc. apply andb_true_iff in Hc as [Hlo _].
  apply N.leb_le in Hlo.
  destruct (N.eqb_spec (N_of_ascii c) 45) as [?|_]; [lia|].
  destruct (N.eqb_spec (N_of_ascii c) 43) as [?|_]; [lia|].
  by apply (int_decimals_digits (String c s)).
Qed.

Lemma int_decimals_nonneg (cs : list N) (acc n : Z) :
  0 ≤ acc → int_decimals acc cs = Some n → 0 ≤ n.
Proof.
  revert acc. induction cs as [|c cs IH]; simpl; intros acc Hacc Hn.
  - by injection Hn as <-.
  - destruct (numeric_type c) as [value| |] eqn:Hk; [|done..].
    apply numeric_type_decimal in Hk. eapply IH; [|done]. lia.
Qed.

(** What [str.isdigit] accepts, [int] never reads as a negative number. *)
Lemma isdigit_int_nonneg (s : string) (n : Z) :
  isdigit s = true → int s = Some n → 0 ≤ n.
Proof.
  unfold isdigit, int. destruct (decode_utf8 s) as [|c cs]; [done|].
  intros Hall Hn. cbn [forallb] in Hall. apply andb_true_iff in Hall as [Hc _].
  unfold char_isdigit in Hc.
  destruct (N.eqb_spec c 45) as [->|_].
  { by rewrite numeric_type_ascii in Hc. }
  destruct (N.eqb_spec c 43) as [->|_].
  { by rewrite numeric_type_ascii in Hc. }
  by eapply int_decimals_nonneg.
Qed.

End BuiltinsProperties.

Section Properties.

Context {EmployeeType : Type} `{Countable EmployeeType}.
Context (EmployeeType_call : string → option EmployeeType).
Context `{Unicode}.

Implicit Types (env : Env EmployeeType) (request : Request).

Lemma run_bind {R S : Type} env (p : Prog R) (f : R → Prog S) :
  run env (p ≫= f) =
  match run env p with
  | (trace, Returned r) => let '(trace', out) := run env (f r) in ((trace ++ trace')%list, out)
  | (trace, Aborted code description) => (trace, Aborted code description)
  end.
Proof.
  induction p as [r|code description|A op k IH]; simpl.
  - by destruct (run env (f r)).
  - done.
  - unfold mbind, Prog_bind in *. simpl.
    destruct (env A op) as [a|code description]; [|done].
    rewrite IH. destruct (run env (k a)) as [trace [r|code description]]; [|done].
    by destruct (run env (f r)).
Qed.

Lemma run_ret {R S : Type} env (r : R) (f : R → Prog S) :
  run env (Ret r ≫= f) = run env (f r).
Proof. done. Qed.

Lemma run_abort {R S : Type} env code description (f : R → Prog S) :
  run env (Abort code description ≫= f) = ([], Aborted code description).
Proof. done. Qed.

(** A handler behind [@jwt_required] runs once the token check has passed. *)
Lemma run_jwt_required {R : Type} env (handler : Prog R) :
  env _ verify_jwt_in_request = Returned tt →
  run env (jwt_required handler) =
  (Ev verify_jwt_in_request :: (run env handler).1, (run env handler).2).
Proof.
  intros Hjwt. unfold jwt_required, call, mbind, Prog_bind. simpl.
  rewrite Hjwt. by destruct (run env handler).
Qed.

Lemma run_call {R A : Type} env (op : Op A) (f : A → Prog R) :
  run env (call op ≫= f) =
  match env _ op with
  | Returned a => (Ev op :: (run env (f a)).1, (run env (f a)).2)
  | Aborted code description => ([Ev op], Aborted code description)
  end.
Proof.
  unfold call, mbind, Prog_bind. simpl.
  destruct (env A op) as [a|]; [|done]. by destruct (run env (f a)).
Qed.

(** The run of a status change of post [post] to [new_status] by [caller]. *)
Lemma run_set_post_status env request caller post new_status :
  env _ get_jwt_identity = Returned caller →
  env _ (get_uuid (of_request request)) = Returned post →
  run env (caller' ← call get_jwt_identity;
           post' ← call (get_uuid (of_request request));
           r ← call (set_post_status caller' post' new_status);
           Ret (r, 201)) =
  ([Ev get_jwt_identity; Ev (get_uuid (of_request request));
    Ev (set_post_status caller post new_status)],
   with_code 201 (env _ (set_post_status caller post new_status))).
Proof.
  intros Hid Huuid.
  rewrite run_call, Hid. rewrite run_call, Huuid. rewrite run_call.
  by destruct (env _ (set_post_status caller post new_status)).
Qed.

(** C1: an authenticated unarchive request whose [status] parameter is
    absent, is not the name of a post status, or names [archived], is
    answered 400 "Incorrect status value" after the token check alone, so no
    post is touched; one that names a status S other than [archived] calls
    [set_post_status] with the caller's identity, the post ID and exactly S. *)
Theorem ArchivePost_delete_status env request :
  env _ verify_jwt_in_request = Returned tt →
  (assoc "status" (args request) = None
   ∨ (∀ s, PostStatus_name s ≠ args_get request "status" "")
   ∨ args_get request "status" "" = PostStatus_name archived →
   run env (ArchivePost_delete request) =
   ([Ev verify_jwt_in_request], Aborted 400 "Incorrect status value"))
  ∧ (∀ S caller post,
       assoc "status" (args request) = Some (PostStatus_name S) →
       S ≠ archived →
       env _ get_jwt_identity = Returned caller →
       env _ (get_uuid (of_request request)) = Returned post →
       run env (ArchivePost_delete request) =
       ([Ev verify_jwt_in_request; Ev get_jwt_identity;
         Ev (get_uuid (of_request request));
         Ev (set_post_status caller post S)],
        with_code 201 (env _ (set_post_status caller post S)))).
Proof.
  intros Hjwt. unfold ArchivePost_delete. rewrite (run_jwt_required _ _ Hjwt). split.
  - intros Hbad.
    assert (Hcases : PostStatus_getitem (args_get request "status" "") = None
                     ∨ PostStatus_getitem (args_get request "status" "") = Some archived).
    { destruct Hbad as [Habsent|[Hnoname|Harchived]].
      - left. unfold args_get. by rewrite Habsent.
      - left. by apply PostStatus_getitem_None.
      - right. by apply PostStatus_getitem_Some. }
    by destruct Hcases as [->| ->].
  - intros S caller post Hstatus Hne Hid Huuid.
    unfold args_get. rewrite Hstatus.
    assert (Hget : PostStatus_getitem (PostStatus_name S) = Some S)
      by by apply PostStatus_getitem_Some.
    rewrite Hget. destruct (decide (S = archived)) as [|_]; [done|].
    by rewrite (run_set_post_status _ _ _ _ _ Hid Huuid).
Qed.

(** C2: for an authenticated request with a post ID, approve asks for
    [posted], disapprove for [under_consideration], return for
    [returned_for_improvement], reject for [rejected] and archive for
    [archived]; each one makes the same call to [set_post_status] with the
    caller's identity and the post ID. *)
Theorem moderation_actions_target_status env request caller post :
  env _ verify_jwt_in_request = Returned tt →
  env _ get_jwt_identity = Returned caller →
  env _ (get_uuid (of_request request)) = Returned post →
  let transition (S : PostStatus) :=
    ([Ev verify_jwt_in_request; Ev get_jwt_identity;
      Ev (get_uuid (of_request request));
      Ev (set_post_status caller post S)],
     with_code 201 (env _ (set_post_status caller post S))) in
  run env (ApprovePost_post request) = transition posted
  ∧ run env (ApprovePost_delete request) = transition under_consideration
  ∧ run env (ApprovePost_post_return request) = transition returned_for_improvement
  ∧ run env (ApprovePost_post_reject request) = transition rejected
  ∧ run env (ArchivePost_post request) = transition archived.
Proof.
  intros Hjwt Hid Huuid transition. subst transition.
  unfold ApprovePost_post, ApprovePost_delete, ApprovePost_post_return,
    ApprovePost_post_reject, ArchivePost_post.
  rewrite !(run_jwt_required _ _ Hjwt).
  by rewrite !(run_set_post_status _ _ _ _ _ Hid Huuid).
Qed.

(** C7: a refresh request whose refresh token is accepted gets an access
    token and a refresh token both created for the identity read from that
    token, and [user_id] is that identity. *)
Theorem AuthRefresh_post_same_identity env identity access refresh :
  env _ verify_jwt_refresh_token_in_request = Returned tt →
  env _ get_jwt_identity = Returned identity →
  env _ (create_access_token identity) = Returned access →
  env _ (create_refresh_token identity) = Returned refresh →
  run env AuthRefresh_post =
  ([Ev verify_jwt_refresh_token_in_request; Ev get_jwt_identity;
    Ev (create_access_token identity); Ev (create_refresh_token identity)],
   Returned (mkTokenPair access refresh identity, 200))
  ∧ user_id (mkTokenPair access refresh identity) = identity.
Proof.
  intros Hjwt Hid Haccess Hrefresh. split; [|done].
  unfold AuthRefresh_post, jwt_refresh_token_required.
  rewrite run_call, Hjwt. rewrite run_call, Hid.
  rewrite run_call, Haccess. by rewrite run_call, Hrefresh.
Qed.

Lemma run_moderation_statuses env statuses_raw statuses :
  (run env (moderation_statuses statuses_raw statuses)).1 = [].
Proof.
  revert statuses. induction statuses_raw as [|status rest IH]; intros statuses; simpl; [done|].
  destruct (truthy status); [|done].
  by destruct (PostStatus_getitem status).
Qed.

Lemma truthy_true (s : string) : truthy s = true ↔ s ≠ "".
Proof.
  unfold truthy. destruct (String.eqb_spec s "") as [->|Hne]; simpl.
  - split; [discriminate|congruence].
  - split; [by intros _|done].
Qed.

Lemma moderation_statuses_bad statuses_raw statuses :
  (∃ s, s ∈ statuses_raw ∧ s ≠ "" ∧ PostStatus_getitem s = None) →
  ∃ s, s ∈ statuses_raw ∧ s ≠ "" ∧ PostStatus_getitem s = None
       ∧ moderation_statuses (EmployeeType:=EmployeeType) statuses_raw statuses =
         Abort 422 ("Incorrect status value '" ++ s ++ "'")%string.
Proof.
  revert statuses. induction statuses_raw as [|status rest IH]; intros statuses [s (Hin & Hne & Hbad)].
  - by apply elem_of_nil in Hin.
  - simpl. destruct (truthy status) eqn:Htruthy.
    + destruct (PostStatus_getitem status) as [S|] eqn:Hget.
      * apply elem_of_cons in Hin as [->|Hin]; [congruence|].
        destruct (IH (statuses ∪ {[S]})) as (s' & ? & ? & ? & ?); [by eauto|].
        exists s'. repeat split; [by right|done..].
      * exists status. apply truthy_true in Htruthy. repeat split; [by left|done..].
    + apply elem_of_cons in Hin as [->|Hin].
      * apply truthy_true in Hne. congruence.
      * destruct (IH statuses) as (s' & ? & ? & ? & ?); [by eauto|].
        exists s'. repeat split; [by right|done..].
Qed.

Lemma moderation_statuses_ok statuses_raw statuses :
  (∀ s, s ∈ statuses_raw → s ≠ "" → is_Some (PostStatus_getitem s)) →
  ∃ statuses',
    moderation_statuses (EmployeeType:=EmployeeType) statuses_raw statuses = Ret statuses'
    ∧ ∀ S, S ∈ statuses' ↔
           S ∈ statuses ∨ ∃ s, s ∈ statuses_raw ∧ PostStatus_getitem s = Some S.
Proof.
  revert statuses. induction statuses_raw as [|status rest IH]; intros statuses Hall; simpl.
  - exists statuses. split; [done|]. intros S. split; [by left|].
    intros [?|(s & Hin & _)]; [done|]. by apply elem_of_nil in Hin.
  - destruct (truthy status) eqn:Htruthy.
    + destruct (Hall status) as [S0 HS0]; [by left|by apply truthy_true|].
      rewrite HS0.
      destruct (IH (statuses ∪ {[S0]})) as (statuses' & Heq & Hchar).
      { intros s Hin. apply Hall. by right. }
      exists statuses'. split; [done|]. intros S. rewrite Hchar. split.
      * intros [Hin|(s & Hin & Hs)].
        -- apply elem_of_union in Hin as [Hin|Hin]; [by left|].
           apply elem_of_singleton in Hin as ->. right. exists status. split; [by left|done].
        -- right. exists s. split; [by right|done].
      * intros [Hin|(s & Hin & Hs)]; [left; apply elem_of_union; by left|].
        apply elem_of_cons in Hin as [->|Hin].
        -- left. assert (S = S0) as -> by congruence.
           apply elem_of_union. right. by apply elem_of_singleton.
        -- right. by exists s.
    + destruct (IH statuses) as (statuses' & Heq & Hchar).
      { intros s Hin. apply Hall. by right. }
      exists statuses'. split; [done|]. intros S. rewrite Hchar. split.
      * intros [?|(s & Hin & Hs)]; [by left|]. right. exists s. split; [by right|done].
      * intros [?|(s & Hin & Hs)]; [by left|].
        apply elem_of_cons in Hin as [->|Hin]; [|right; by exists s].
        assert (status = "") as ->.
        { destruct (String.eqb_spec status ""); [done|]. unfold truthy in Htruthy.
          destruct (String.eqb_spec status ""); done. }
        done.
Qed.

Lemma run_PostModeration_get env request statuses_raw statuses caller page :
  env _ verify_jwt_in_request = Returned tt →
  env _ (query_param_to_set "statuses") = Returned statuses_raw →
  moderation_statuses (EmployeeType:=EmployeeType) statuses_raw ∅ = Ret statuses →
  env _ get_jwt_identity = Returned caller →
  env _ (get_page request) = Returned page →
  let reverse := String.eqb (args_get request "reverse" "true") "true" in
  run env (PostModeration_get request) =
  ([Ev verify_jwt_in_request; Ev (query_param_to_set "statuses");
    Ev get_jwt_identity; Ev (get_page request);
    Ev (get_all_posts caller page statuses reverse)],
   with_code 200 (env _ (get_all_posts caller page statuses reverse))).
Proof.
  intros Hjwt Hraw Heq Hid Hpage. cbv zeta. unfold PostModeration_get.
  rewrite (run_jwt_required _ _ Hjwt), run_call, Hraw, Heq, run_ret.
  rewrite run_call, Hid. rewrite run_call, Hpage. rewrite run_call.
  by destruct (env _ (get_all_posts caller page statuses _)).
Qed.

Lemma moderation_statuses_named statuses_raw :
  (∀ s, s ∈ statuses_raw → s ≠ "" → ∃ S, PostStatus_name S = s) →
  ∃ statuses : gset PostStatus,
    moderation_statuses (EmployeeType:=EmployeeType) statuses_raw ∅ = Ret statuses
    ∧ ∀ S, S ∈ statuses ↔ PostStatus_name S ∈ statuses_raw.
Proof.
  intros Hall.
  destruct (moderation_statuses_ok statuses_raw ∅) as (statuses & Heq & Hchar).
  { intros s Hin Hne. destruct (Hall s Hin Hne) as [S HS].
    exists S. by apply PostStatus_getitem_Some. }
  exists statuses. split; [done|].
  intros S. rewrite Hchar. split.
  - intros [Hin|(s & Hin & Hs)]; [by apply not_elem_of_empty in Hin|].
    apply PostStatus_getitem_Some in Hs. by subst.
  - intros Hin. right. exists (PostStatus_name S).
    split; [done|]. by apply PostStatus_getitem_Some.
Qed.

(** C6: an authenticated moderation listing whose [statuses] set holds a
    non-empty element that is not the name of a post status is answered 422
    "Incorrect status value '<element>'" with no call after reading the
    parameter, so no post is fetched; otherwise [get_all_posts] is given the
    set of the statuses named in [statuses]. *)
Theorem PostModeration_get_statuses env request statuses_raw :
  env _ verify_jwt_in_request = Returned tt →
  env _ (query_param_to_set "statuses") = Returned statuses_raw →
  ((∃ s, s ∈ statuses_raw ∧ s ≠ "" ∧ ∀ S, PostStatus_name S ≠ s) →
   ∃ s, s ∈ statuses_raw ∧ s ≠ "" ∧ (∀ S, PostStatus_name S ≠ s)
        ∧ run env (PostModeration_get request) =
          ([Ev verify_jwt_in_request; Ev (query_param_to_set "statuses")],
           Aborted 422 ("Incorrect status value '" ++ s ++ "'")%string))
  ∧ ((∀ s, s ∈ statuses_raw → s ≠ "" → ∃ S, PostStatus_name S = s) →
     ∃ statuses : gset PostStatus,
       (∀ S, S ∈ statuses ↔ PostStatus_name S ∈ statuses_raw)
       ∧ ∀ caller page,
           env _ get_jwt_identity = Returned caller →
           env _ (get_page request) = Returned page →
           let reverse := String.eqb (args_get request "reverse" "true") "true" in
           run env (PostModeration_get request) =
           ([Ev verify_jwt_in_request; Ev (query_param_to_set "statuses");
             Ev get_jwt_identity; Ev (get_page request);
             Ev (get_all_posts caller page statuses reverse)],
            with_code 200 (env _ (get_all_posts caller page statuses reverse)))).
Proof.
  intros Hjwt Hraw. split.
  - intros (s & Hin & Hne & Hbad).
    destruct (moderation_statuses_bad statuses_raw ∅) as (s' & Hin' & Hne' & Hbad' & Heq).
    { exists s. by rewrite PostStatus_getitem_None. }
    exists s'. rewrite PostStatus_getitem_None in Hbad'.
    repeat split; [done..|]. unfold PostModeration_get.
    by rewrite (run_jwt_required _ _ Hjwt), run_call, Hraw, Heq, run_abort.
  - intros Hall.
    destruct (moderation_statuses_named statuses_raw Hall) as (statuses & Heq & Hchar).
    exists statuses. split; [done|].
    intros caller page Hid Hpage. by apply (run_PostModeration_get _ _ statuses_raw).
Qed.

Lemma fired_types_bad types_raw types :
  (∃ t, t ∈ types_raw ∧ EmployeeType_call t = None) →
  ∃ t, t ∈ types_raw ∧ EmployeeType_call t = None
       ∧ fired_types EmployeeType_call types_raw types =
         Abort 400 ("Incorrect employee type '" ++ t ++ "'")%string.
Proof.
  revert types. induction types_raw as [|employee_type rest IH]; intros types [t [Hin Hbad]].
  - by apply elem_of_nil in Hin.
  - simpl. destruct (EmployeeType_call employee_type) as [T|] eqn:Hcall.
    + apply elem_of_cons in Hin as [->|Hin]; [congruence|].
      destruct (IH (types ∪ {[T]})) as (t' & ? & ? & ?); [by eauto|].
      exists t'. repeat split; [by right|done..].
    + exists employee_type. repeat split; [by left|done..].
Qed.

Lemma fired_types_ok types_raw types :
  (∀ t, t ∈ types_raw → is_Some (EmployeeType_call t)) →
  ∃ types', fired_types EmployeeType_call types_raw types = Ret types'
    ∧ ∀ T, T ∈ types' ↔
           T ∈ types ∨ ∃ t, t ∈ types_raw ∧ EmployeeType_call t = Some T.
Proof.
  revert types. induction types_raw as [|employee_type rest IH]; intros types Hall; simpl.
  - exists types. split; [done|]. intros T. split; [by left|].
    intros [?|(t & Hin & _)]; [done|]. by apply elem_of_nil in Hin.
  - destruct (Hall employee_type) as [T0 HT0]; [by left|]. rewrite HT0.
    destruct (IH (types ∪ {[T0]})) as (types' & Heq & Hchar).
    { intros t Hin. apply Hall. by right. }
    exists types'. split; [done|]. intros T. rewrite Hchar. split.
    + intros [Hin|(t & Hin & Ht)].
      * apply elem_of_union in Hin as [Hin|Hin]; [by left|].
        apply elem_of_singleton in Hin as ->. right. exists employee_type.
        split; [by left|done].
      * right. exists t. split; [by right|done].
    + intros [Hin|(t & Hin & Ht)]; [left; apply elem_of_union; by left|].
      apply elem_of_cons in Hin as [->|Hin].
      * left. assert (T = T0) as -> by congruence.
        apply elem_of_union. right. by apply elem_of_singleton.
      * right. by exists t.
Qed.

(** C9: an authenticated fired-employees listing whose [types] set holds an
    element that is not the value of an employee type is answered 400
    "Incorrect employee type '<element>'" with no call after reading the
    parameter, so [get_fired_moderators] is not run; otherwise
    [get_fired_moderators] is given the set of the employee types the
    elements stand for. *)
Theorem AuthRefresh_get_fired_types env request types_raw :
  env _ verify_jwt_in_request = Returned tt →
  env _ (query_param_to_set "types") = Returned types_raw →
  ((∃ t, t ∈ types_raw ∧ EmployeeType_call t = None) →
   ∃ t, t ∈ types_raw ∧ EmployeeType_call t = None
        ∧ run env (AuthRefresh_get_fired EmployeeType_call request) =
          ([Ev verify_jwt_in_request; Ev (query_param_to_set "types")],
           Aborted 400 ("Incorrect employee type '" ++ t ++ "'")%string))
  ∧ ((∀ t, t ∈ types_raw → is_Some (EmployeeType_call t)) →
     ∃ types : gset EmployeeType,
       (∀ T, T ∈ types ↔ ∃ t, t ∈ types_raw ∧ EmployeeType_call t = Some T)
       ∧ ∀ subunit,
           env _ (get_uuid (of_request request)) = Returned subunit →
           run env (AuthRefresh_get_fired EmployeeType_call request) =
           ([Ev verify_jwt_in_request; Ev (query_param_to_set "types");
             Ev (get_uuid (of_request request));
             Ev (get_fired_moderators subunit types)],
            with_code 200 (env _ (get_fired_moderators subunit types)))).
Proof.
  intros Hjwt Hraw. unfold AuthRefresh_get_fired.
  rewrite (run_jwt_required _ _ Hjwt), run_call, Hraw. split.
  - intros Hbad.
    destruct (fired_types_bad types_raw ∅ Hbad) as (t & Hin & Ht & Heq).
    exists t. repeat split; [done..|]. by rewrite Heq, run_abort.
  - intros Hall.
    destruct (fired_types_ok types_raw ∅ Hall) as (types & Heq & Hchar).
    exists types. split.
    + intros T. rewrite Hchar. split; [|by right].
      intros [Hin|?]; [|done]. by apply not_elem_of_empty in Hin.
    + intros subunit Huuid. rewrite Heq, run_ret.
      rewrite run_call, Huuid. rewrite run_call.
      by destruct (env _ (get_fired_moderators subunit types)).
Qed.

(** C10: an authenticated statistics request in which one of [start_year],
    [start_month], [end_year], [end_month] is missing, or holds a character
    that is no digit to [str.isdigit], as is every character of the ASCII
    range other than '0'..'9' (a minus sign is one), is answered 400 "Date
    values must be integers" with no call after reading [ids], so
    [get_statistics] is not run. *)
Theorem PostStat_get_non_integer_dates env request ids_raw param :
  env _ verify_jwt_in_request = Returned tt →
  env _ (query_param_to_set "ids") = Returned ids_raw →
  param ∈ ["start_year"; "start_month"; "end_year"; "end_month"]%string →
  (assoc param (args request) = None
   ∨ (∃ c, c ∈ decode_utf8 (args_get request param "") ∧ numeric_type c = NoDigit)
   ∨ (∃ b, In b (list_ascii_of_string (args_get request param ""))
           ∧ (N_of_ascii b < 128)%N ∧ is_digit b = false)) →
  run env (PostStat_get request) =
  ([Ev verify_jwt_in_request; Ev (query_param_to_set "ids")],
   Aborted 400 "Date values must be integers").
Proof.
  intros Hjwt Hraw Hparam Hbad. unfold PostStat_get.
  rewrite (run_jwt_required _ _ Hjwt). cbv zeta. rewrite run_call, Hraw.
  assert (Hd : isdigit (args_get request param "") = false).
  { apply isdigit_false_iff.
    destruct Hbad as [Habsent|[(c & Hin & Hc)|(b & Hin & Hlow & Hb)]].
    - left. unfold args_get. by rewrite Habsent.
    - right. by exists c.
    - right. exists (N_of_ascii b).
      split; [by apply decode_utf8_ascii_byte|by apply is_digit_false_numeric_type]. }
  assert (Hall : forallb isdigit
            [args_get request "start_year" ""; args_get request "start_month" "";
             args_get request "end_year" ""; args_get request "end_month" ""] = false).
  { simpl. repeat (apply elem_of_cons in Hparam as [->|Hparam]);
      [rewrite Hd..|by apply elem_of_nil in Hparam];
      rewrite ?andb_false_r; done. }
  by rewrite Hall.
Qed.

Lemma run_get_uuids env ids_raw us :
  Forall2 (fun e_id u => env _ (get_uuid (of_str e_id)) = Returned u) ids_raw us →
  run env (get_uuids ids_raw) =
  ((fun e_id => Ev (get_uuid (of_str e_id))) <$> ids_raw, Returned us).
Proof.
  induction 1 as [|e_id u rest us Hu _ IH]; [done|].
  cbn [get_uuids]. rewrite run_call, Hu. rewrite run_bind, IH. simpl.
  by rewrite app_nil_r.
Qed.

Lemma forallb_truthy (l : list string) : forallb truthy l = true ↔ "" ∉ l.
Proof.
  induction l as [|s l IH]; simpl.
  - split; [intros _ Hin; by apply elem_of_nil in Hin|done].
  - rewrite andb_true_iff, IH, truthy_true, not_elem_of_cons.
    split; intros [Hs Hl]; (split; [congruence|done]).
Qed.

Lemma int_or_raise_ascii_digits (param : string) :
  ascii_digits param = true →
  int_or_raise (EmployeeType:=EmployeeType) param = Ret (int_digits 0 param).
Proof. intros Hd. unfold int_or_raise. by rewrite (ascii_digits_int _ Hd). Qed.

Lemma forallb_ascii_digits_isdigit (params : list string) :
  forallb ascii_digits params = true → forallb isdigit params = true.
Proof.
  rewrite !forallb_forall. intros Hall param Hin.
  by apply ascii_digits_isdigit, Hall.
Qed.

(** The run of [PostStat.get] once the four dates are strings of '0'..'9'. *)
Lemma run_PostStat_get env request ids_raw subunit_ids :
  env _ verify_jwt_in_request = Returned tt →
  env _ (query_param_to_set "ids") = Returned ids_raw →
  forallb ascii_digits
    [args_get request "start_year" ""; args_get request "start_month" "";
     args_get request "end_year" ""; args_get request "end_month" ""] = true →
  subunit_filter env ids_raw subunit_ids →
  let stats :=
    get_statistics (int_digits 0 (args_get request "start_year" ""))
      (int_digits 0 (args_get request "start_month" ""))
      (int_digits 0 (args_get request "end_year" ""))
      (int_digits 0 (args_get request "end_month" "")) subunit_ids in
  run env (PostStat_get request) =
  ([Ev verify_jwt_in_request; Ev (query_param_to_set "ids")]
     ++ uuid_calls ids_raw subunit_ids ++ [Ev stats],
   with_code 200 (env _ stats))%list.
Proof.
  intros Hjwt Hraw Hdigits Hfilter. cbv zeta. unfold PostStat_get.
  rewrite (run_jwt_required _ _ Hjwt). cbv zeta.
  rewrite run_call, Hraw, (forallb_ascii_digits_isdigit _ Hdigits).
  simpl in Hdigits. rewrite !andb_true_iff in Hdigits.
  destruct Hdigits as (Hsy & Hsm & Hey & Hem & _).
  cbn [negb fst snd].
  rewrite (int_or_raise_ascii_digits _ Hsy), (int_or_raise_ascii_digits _ Hsm),
    (int_or_raise_ascii_digits _ Hey), (int_or_raise_ascii_digits _ Hem).
  destruct subunit_ids as [us|]; simpl in Hfilter.
  - destruct Hfilter as (Hne & Hempty & Huuids).
    rewrite bool_decide_eq_false_2 by done.
    apply forallb_truthy in Hempty. rewrite Hempty. cbn [negb andb].
    rewrite run_bind, run_bind, (run_get_uuids _ _ _ Huuids). cbn [run].
    rewrite !run_ret, run_call. cbn [uuid_calls app].
    destruct (env _ (get_statistics _ _ _ _ (Some us))); simpl;
      by rewrite app_nil_r.
  - assert (Hcond : negb (bool_decide (ids_raw = [])) && forallb truthy ids_raw = false).
    { destruct Hfilter as [->|Hin]; [done|].
      apply andb_false_iff. right.
      destruct (forallb truthy ids_raw) eqn:Hall; [|done].
      by apply forallb_truthy in Hall. }
    rewrite Hcond, !run_ret, run_call.
    by destruct (env _ (get_statistics _ _ _ _ None)).
Qed.

(** C8, as the code has it: for an authenticated statistics request whose
    four dates are non-empty strings of '0'..'9', [get_statistics] is given
    as filter exactly the IDs [get_uuid] returns for the elements of the
    [ids] set, when that set is non-empty and holds no empty string, and
    [None] (all subunits) when the set is empty or holds the empty string,
    which is what an omitted [ids] comes to. *)
Theorem PostStat_get_subunit_filter env request ids_raw :
  env _ verify_jwt_in_request = Returned tt →
  env _ (query_param_to_set "ids") = Returned ids_raw →
  forallb ascii_digits
    [args_get request "start_year" ""; args_get request "start_month" "";
     args_get request "end_year" ""; args_get request "end_month" ""] = true →
  let stats :=
    get_statistics (int_digits 0 (args_get request "start_year" ""))
      (int_digits 0 (args_get request "start_month" ""))
      (int_digits 0 (args_get request "end_year" ""))
      (int_digits 0 (args_get request "end_month" "")) in
  (∀ us,
     ids_raw ≠ [] → "" ∉ ids_raw →
     Forall2 (fun e_id u => env _ (get_uuid (of_str e_id)) = Returned u) ids_raw us →
     run env (PostStat_get request) =
     ([Ev verify_jwt_in_request; Ev (query_param_to_set "ids")]
        ++ ((fun e_id => Ev (get_uuid (of_str e_id))) <$> ids_raw)
        ++ [Ev (stats (Some us))],
      with_code 200 (env _ (stats (Some us))))%list)
  ∧ (ids_raw = [] ∨ "" ∈ ids_raw →
     run env (PostStat_get request) =
     ([Ev verify_jwt_in_request; Ev (query_param_to_set "ids"); Ev (stats None)],
      with_code 200 (env _ (stats None))))
  ∧ (assoc "ids" (args request) = None →
     models_query_param_to_set request "ids" = [""]
     ∧ run (request_env env request) (PostStat_get request) =
       ([Ev verify_jwt_in_request; Ev (query_param_to_set "ids"); Ev (stats None)],
        with_code 200 (env _ (stats None)))).
Proof.
  intros Hjwt Hraw Hdigits. cbv zeta. split; [|split].
  - intros us Hne Hempty Huuids.
    by apply (run_PostStat_get env request ids_raw (Some us)).
  - intros Hnone.
    by apply (run_PostStat_get env request ids_raw None).
  - intros Habsent.
    assert (Hset : models_query_param_to_set request "ids" = [""]).
    { unfold models_query_param_to_set, args_get. by rewrite Habsent. }
    split; [done|].
    apply (run_PostStat_get (request_env env request) request [""] None);
      [done| |done|].
    + simpl. by rewrite Hset.
    + right. by left.
Qed.

Lemma attachments_exist (st : Store) (l : list UUID) :
  forallb (attachment_exists st) l = true ↔ ∀ a, a ∈ l → a ∈ store_attachments st.
Proof.
  rewrite forallb_forall. unfold attachment_exists. split.
  - intros Hall a Hin. apply list_elem_of_In in Hin.
    exact (bool_decide_eq_true_1 _ (Hall a Hin)).
  - intros Hall a Hin. apply bool_decide_eq_true_2, Hall. by apply list_elem_of_In.
Qed.

Lemma post_service_create_post_status st new_id today caller payload st' post :
  post_service_create_post st new_id today caller payload = Returned (st', post) →
  status post = under_consideration ∧ store_posts st' = post :: store_posts st.
Proof.
  unfold post_service_create_post.
  destruct (forallb _ _); [|done]. by intros [= <- <-].
Qed.

(** C3: with [create_post] as section 4.3 describes it, an authenticated
    create request whose attachments all exist returns (201) a post that is
    stored with status [under_consideration]; a request naming an attachment
    that does not exist is answered 404; and whatever post the handler
    returns has status [under_consideration]. *)
Theorem Post_post_under_consideration (base : Env EmployeeType) st new_id today
    payload caller :
  base _ verify_jwt_in_request = Returned tt →
  base _ get_jwt_identity = Returned caller →
  let env := store_env base st new_id today in
  let trace := [Ev verify_jwt_in_request; Ev get_jwt_identity;
                Ev (create_post caller payload)] in
  ((∀ a, a ∈ create_attachments payload → a ∈ store_attachments st) →
   ∃ post st',
     post_service_create_post st new_id today caller payload = Returned (st', post)
     ∧ run env (Post_post payload) = (trace, Returned (post, 201))
     ∧ status post = under_consideration
     ∧ store_posts st' = post :: store_posts st)
  ∧ ((∃ a, a ∈ create_attachments payload ∧ a ∉ store_attachments st) →
     run env (Post_post payload) = (trace, Aborted 404 "Attachment not found"))
  ∧ (∀ trace' post code,
       run env (Post_post payload) = (trace', Returned (post, code)) →
       status post = under_consideration).
Proof.
  intros Hjwt Hid env trace.
  assert (Hrun : run env (Post_post payload) =
                 (trace, with_code 201 (env _ (create_post caller payload)))).
  { unfold Post_post. rewrite (run_jwt_required env _ Hjwt).
    rewrite run_call. change (env _ get_jwt_identity) with (base _ get_jwt_identity).
    rewrite Hid, run_call. by destruct (env _ (create_post caller payload)). }
  rewrite Hrun. subst env. cbn [store_env].
  split; [|split].
  - intros Hall. apply attachments_exist in Hall.
    unfold post_service_create_post. rewrite Hall.
    eexists _, _. repeat split.
  - intros (a & Hin & Hmissing).
    unfold post_service_create_post.
    destruct (forallb _ _) eqn:Hall; [|done].
    rewrite attachments_exist in Hall. destruct Hmissing. by apply Hall.
  - intros trace' post code.
    destruct (post_service_create_post st new_id today caller payload)
      as [[st' post']|] eqn:Hcreate; [|done].
    intros [= _ <- _]. by apply post_service_create_post_status in Hcreate as [? _].
Qed.

Lemma moderation_statuses_no_call statuses_raw statuses :
  (∃ statuses',
     moderation_statuses (EmployeeType:=EmployeeType) statuses_raw statuses = Ret statuses')
  ∨ (∃ code description,
       moderation_statuses (EmployeeType:=EmployeeType) statuses_raw statuses =
       Abort code description).
Proof.
  revert statuses. induction statuses_raw as [|status rest IH]; intros statuses; simpl.
  - left. by eexists.
  - destruct (truthy status); [|done].
    destruct (PostStatus_getitem status); [done|]. right. by eexists _, _.
Qed.

(** C5, as the code has it: the three listings make no writing call.
    [archived] and [moderation] read the page number, pass it to the service
    and return a counted list (posts and [pages_count]); [of_employee] reads
    no page number and returns the list of all the employee's posts. *)
Theorem listings_read_only_archived_and_moderation_paginated env request :
  (existsb is_write_call (run env (PostModeration_get request)).1 = false
   ∧ existsb is_write_call (run env (ArchivePost_get request)).1 = false
   ∧ existsb is_write_call (run env (Post_get_of_employee request)).1 = false)
  ∧ (env _ verify_jwt_in_request = Returned tt →
     (∀ page,
        env _ (get_page request) = Returned page →
        run env (ArchivePost_get request) =
        ([Ev verify_jwt_in_request; Ev (get_page request);
          Ev (get_archived_posts page)],
         with_code 200 (env _ (get_archived_posts page))))
     ∧ (∀ statuses_raw caller page,
          env _ (query_param_to_set "statuses") = Returned statuses_raw →
          (∀ s, s ∈ statuses_raw → s ≠ "" → ∃ S, PostStatus_name S = s) →
          env _ get_jwt_identity = Returned caller →
          env _ (get_page request) = Returned page →
          ∃ statuses reverse,
            run env (PostModeration_get request) =
            ([Ev verify_jwt_in_request; Ev (query_param_to_set "statuses");
              Ev get_jwt_identity; Ev (get_page request);
              Ev (get_all_posts caller page statuses reverse)],
             with_code 200 (env _ (get_all_posts caller page statuses reverse))))
     ∧ (∀ employee,
          env _ (get_uuid (of_request request)) = Returned employee →
          run env (Post_get_of_employee request) =
          ([Ev verify_jwt_in_request; Ev (get_uuid (of_request request));
            Ev (get_all_employee_posts employee)],
           with_code 200 (env _ (get_all_employee_posts employee)))
          ∧ existsb is_get_page (run env (Post_get_of_employee request)).1 = false)).
Proof.
  split.
  - unfold PostModeration_get, ArchivePost_get, Post_get_of_employee, jwt_required.
    repeat split.
    + rewrite run_call. destruct (env _ verify_jwt_in_request); [|done].
      rewrite run_call. destruct (env _ (query_param_to_set _)) as [statuses_raw|]; [|done].
      destruct (moderation_statuses_no_call statuses_raw ∅)
        as [[statuses ->]|(code & description & ->)]; [|done].
      rewrite run_ret, run_call. destruct (env _ get_jwt_identity); [|done].
      rewrite run_call. destruct (env _ (get_page _)); [|done].
      rewrite run_call. by destruct (env _ (get_all_posts _ _ _ _)).
    + rewrite run_call. destruct (env _ verify_jwt_in_request); [|done].
      rewrite run_call. destruct (env _ (get_page _)); [|done].
      rewrite run_call. by destruct (env _ (get_archived_posts _)).
    + rewrite run_call. destruct (env _ verify_jwt_in_request); [|done].
      rewrite run_call. destruct (env _ (get_uuid _)); [|done].
      rewrite run_call. by destruct (env _ (get_all_employee_posts _)).
  - intros Hjwt. split; [|split].
    + intros page Hpage. unfold ArchivePost_get.
      rewrite (run_jwt_required _ _ Hjwt), run_call, Hpage, run_call.
      by destruct (env _ (get_archived_posts page)).
    + intros statuses_raw caller page Hraw Hall Hid Hpage.
      destruct (moderation_statuses_named statuses_raw Hall) as (statuses & Heq & _).
      exists statuses, (String.eqb (args_get request "reverse" "true") "true").
      by apply (run_PostModeration_get _ _ statuses_raw).
    + intros employee Huuid. unfold Post_get_of_employee.
      rewrite (run_jwt_required _ _ Hjwt), run_call, Huuid, run_call.
      by destruct (env _ (get_all_employee_posts employee)).
Qed.

Lemma valid_month_bounds (month : Z) : valid_month month = true ↔ 1 ≤ month ≤ 12.
Proof. unfold valid_month. rewrite andb_true_iff, !Z.leb_le. done. Qed.

Lemma month_of_index_index (d : Z * Z) :
  valid_month d.2 = true → month_of_index (month_index d) = d.
Proof.
  destruct d as [y m]. rewrite valid_month_bounds. unfold month_of_index, month_index.
  simpl. intros Hm. f_equal; Z.to_euclidean_division_equations; lia.
Qed.

Lemma month_index_of_index (i : Z) :
  month_index (month_of_index i) = i ∧ valid_month (month_of_index i).2 = true.
Proof.
  rewrite valid_month_bounds. unfold month_of_index, month_index. simpl.
  Z.to_euclidean_division_equations. lia.
Qed.

Lemma date_precedes_index (d1 d2 : Z * Z) :
  valid_month d1.2 = true → valid_month d2.2 = true →
  date_precedes d1 d2 = true ↔ month_index d1 < month_index d2.
Proof.
  destruct d1 as [y1 m1], d2 as [y2 m2]. rewrite !valid_month_bounds.
  unfold date_precedes, month_index. simpl. intros H1 H2.
  rewrite orb_true_iff, andb_true_iff, !Z.ltb_lt, Z.eqb_eq. lia.
Qed.

(** The months listed are those of the inclusive range. *)
Lemma months_between_spec (first last d : Z * Z) :
  valid_month first.2 = true → valid_month last.2 = true →
  d ∈ months_between first last ↔
  valid_month d.2 = true ∧ date_precedes d first = false ∧ date_precedes last d = false.
Proof.
  intros Hfirst Hlast. unfold months_between. rewrite list_elem_of_fmap. split.
  - intros (i & -> & Hi). apply elem_of_seqZ in Hi.
    destruct (month_index_of_index i) as [Hidx Hvalid].
    split; [done|]. split.
    + destruct (date_precedes (month_of_index i) first) eqn:Hp; [|done].
      apply date_precedes_index in Hp; [lia|done..].
    + destruct (date_precedes last (month_of_index i)) eqn:Hp; [|done].
      apply date_precedes_index in Hp; [lia|done..].
  - intros (Hvalid & Hfrom & Hto). exists (month_index d).
    split; [by rewrite month_of_index_index|].
    apply elem_of_seqZ.
    assert (¬ month_index d < month_index first).
    { intros Hlt. apply date_precedes_index in Hlt; [congruence|done..]. }
    assert (¬ month_index last < month_index d).
    { intros Hlt. apply date_precedes_index in Hlt; [congruence|done..]. }
    lia.
Qed.

Lemma post_service_get_statistics_invalid st sy sm ey em subunit_ids :
  date_precedes (ey, em) (sy, sm) = true
  ∨ valid_month sm = false ∨ valid_month em = false →
  post_service_get_statistics st sy sm ey em subunit_ids =
  Aborted 422 "Invalid date given".
Proof.
  unfold post_service_get_statistics.
  intros [->|[->| ->]]; by rewrite ?orb_true_r, ?andb_false_r.
Qed.

Lemma post_service_get_statistics_valid st sy sm ey em subunit_ids :
  date_precedes (ey, em) (sy, sm) = false →
  valid_month sm = true → valid_month em = true →
  post_service_get_statistics st sy sm ey em subunit_ids =
  Returned ((fun su =>
               (subunit_name su,
                (fun month => (month, count_posts st (subunit_id su) month))
                  <$> months_between (sy, sm) (ey, em)))
            <$> selected_subunits st subunit_ids).
Proof.
  unfold post_service_get_statistics. by intros -> -> ->.
Qed.

(** C4, as the code has it: with [get_statistics] as section 4.4 describes
    it, an authenticated statistics request whose four dates are non-empty
    strings of '0'..'9' and whose subunit filter resolves is answered 422
    when the end date precedes the start date or a month is outside 1..12;
    otherwise it returns (200) one entry per selected subunit, holding for
    exactly the months of the inclusive range the number of posts of that
    subunit dated in that month. *)
Theorem PostStat_get_statistics (base : Env EmployeeType) st new_id today
    request ids_raw subunit_ids :
  base _ verify_jwt_in_request = Returned tt →
  base _ (query_param_to_set "ids") = Returned ids_raw →
  forallb ascii_digits
    [args_get request "start_year" ""; args_get request "start_month" "";
     args_get request "end_year" ""; args_get request "end_month" ""] = true →
  subunit_filter base ids_raw subunit_ids →
  let env := store_env base st new_id today in
  let first := (int_digits 0 (args_get request "start_year" ""),
                int_digits 0 (args_get request "start_month" "")) in
  let last := (int_digits 0 (args_get request "end_year" ""),
               int_digits 0 (args_get request "end_month" "")) in
  (date_precedes last first = true
   ∨ valid_month first.2 = false ∨ valid_month last.2 = false →
   (run env (PostStat_get request)).2 = Aborted 422 "Invalid date given")
  ∧ (date_precedes last first = false →
     valid_month first.2 = true → valid_month last.2 = true →
     ∃ stats : Statistics,
       (run env (PostStat_get request)).2 = Returned (stats, 200)
       ∧ List.length stats = List.length (selected_subunits st subunit_ids)
       ∧ ∀ su, su ∈ selected_subunits st subunit_ids →
           ∃ buckets,
             (subunit_name su, buckets) ∈ stats
             ∧ ∀ d n, (d, n) ∈ buckets ↔
                 (valid_month d.2 = true ∧ date_precedes d first = false
                  ∧ date_precedes last d = false)
                 ∧ n = count_posts st (subunit_id su) d).
Proof.
  intros Hjwt Hraw Hdigits Hfilter env first last.
  assert (Hrun : (run env (PostStat_get request)).2 =
                 with_code 200
                   (post_service_get_statistics st first.1 first.2 last.1 last.2
                      subunit_ids)).
  { rewrite (run_PostStat_get env request ids_raw subunit_ids); done. }
  rewrite Hrun. split.
  - intros Hbad.
    by rewrite (post_service_get_statistics_invalid st _ _ _ _ _ Hbad).
  - intros Horder Hfirst Hlast.
    rewrite (post_service_get_statistics_valid st _ _ _ _ _ Horder Hfirst Hlast).
    eexists. split; [done|]. split; [by rewrite length_fmap|].
    intros su Hsu. eexists. split.
    + apply list_elem_of_fmap. exists su. split; [reflexivity|done].
    + intros d n. rewrite list_elem_of_fmap. split.
      * intros (d' & [= -> ->] & Hin).
        split; [|done]. by apply (months_between_spec first last).
      * intros [Hrange ->]. exists d. split; [done|].
        by apply (months_between_spec first last).
Qed.

End Properties.

(** ** The properties on the small organisation *)

Section OnTheOrganisation.

(** The interpreter of the small organisation knows the excerpt
    [demo_unicode] of the Unicode database. *)
#[local] Existing Instance demo_unicode.

(** Unarchiving to [archived] is refused; unarchiving to [posted] asks for
    [posted]. *)
Lemma ArchivePost_delete_status_witness :
  run (demo_env demo_unarchive_archived) (ArchivePost_delete demo_unarchive_archived) =
  ([Ev verify_jwt_in_request], Aborted 400 "Incorrect status value")
  ∧ run (demo_env demo_unarchive_posted) (ArchivePost_delete demo_unarchive_posted) =
    ([Ev verify_jwt_in_request; Ev get_jwt_identity;
      Ev (get_uuid (of_request demo_unarchive_posted));
      Ev (set_post_status "e-1" "p-7" posted)],
     Returned (demo_post "p-7" posted, 201)).
Proof.
  split.
  - apply (proj1 (ArchivePost_delete_status (demo_env demo_unarchive_archived)
                   demo_unarchive_archived eq_refl)).
    right. right. reflexivity.
  - apply (proj2 (ArchivePost_delete_status (demo_env demo_unarchive_posted)
                   demo_unarchive_posted eq_refl) posted "e-1" "p-7");
      [reflexivity|discriminate|reflexivity|reflexivity].
Defined.

(** Approving post [p-7] as employee [e-1]. *)
Lemma moderation_actions_target_status_witness :
  run (demo_env demo_moderate) (ApprovePost_post demo_moderate) =
  ([Ev verify_jwt_in_request; Ev get_jwt_identity;
    Ev (get_uuid (of_request demo_moderate));
    Ev (set_post_status "e-1" "p-7" posted)],
   Returned (demo_post "p-7" posted, 201)).
Proof.
  apply (proj1 (moderation_actions_target_status (demo_env demo_moderate)
                  demo_moderate "e-1" "p-7" eq_refl eq_refl eq_refl)).
Defined.

(** Creating a post with the stored attachment [a-1], and one with the
    unknown attachment [a-404]. *)
Lemma Post_post_under_consideration_witness :
  (∃ post st',
     post_service_create_post demo_store "p-new" (2020, 11) "e-1" demo_create =
     Returned (st', post)
     ∧ run (demo_store_env demo_moderate) (Post_post demo_create) =
       ([Ev verify_jwt_in_request; Ev get_jwt_identity;
         Ev (create_post "e-1" demo_create)],
        Returned (post, 201))
     ∧ status post = under_consideration
     ∧ store_posts st' = post :: store_posts demo_store)
  ∧ run (demo_store_env demo_moderate) (Post_post demo_create_missing) =
    ([Ev verify_jwt_in_request; Ev get_jwt_identity;
      Ev (create_post "e-1" demo_create_missing)],
     Aborted 404 "Attachment not found").
Proof.
  split.
  - apply (proj1 (Post_post_under_consideration (demo_env demo_moderate) demo_store
                    "p-new" (2020, 11) demo_create "e-1" eq_refl eq_refl)).
    intros a Hin. apply list_elem_of_singleton in Hin as ->. by vm_compute.
  - apply (proj1 (proj2 (Post_post_under_consideration (demo_env demo_moderate) demo_store
                           "p-new" (2020, 11) demo_create_missing "e-1" eq_refl eq_refl))).
    exists "a-404". split; [by left|]. vm_compute. discriminate.
Defined.

(** Refreshing the tokens of employee [e-1]. *)
Lemma AuthRefresh_post_same_identity_witness :
  run (demo_env demo_moderate) AuthRefresh_post =
  ([Ev verify_jwt_refresh_token_in_request; Ev get_jwt_identity;
    Ev (create_access_token "e-1"); Ev (create_refresh_token "e-1")],
   Returned (mkTokenPair "access:e-1" "refresh:e-1" "e-1", 200)).
Proof.
  apply (proj1 (AuthRefresh_post_same_identity (demo_env demo_moderate)
                  "e-1" "access:e-1" "refresh:e-1" eq_refl eq_refl eq_refl eq_refl)).
Defined.

(** [statuses=posted,draft] is refused; [statuses=posted,,rejected] is
    passed on as a set. *)
Lemma PostModeration_get_statuses_witness :
  (∃ s, s ∈ ["posted"; "draft"]%string ∧ s ≠ ""%string
        ∧ (∀ S, PostStatus_name S ≠ s)
        ∧ run (demo_env demo_moderation_bad) (PostModeration_get demo_moderation_bad) =
          ([Ev verify_jwt_in_request; Ev (query_param_to_set "statuses")],
           Aborted 422 ("Incorrect status value '" ++ s ++ "'")%string))
  ∧ (∃ statuses : gset PostStatus,
       (∀ S, S ∈ statuses ↔ PostStatus_name S ∈ ["posted"; ""; "rejected"]%string)
       ∧ run (demo_env demo_moderation) (PostModeration_get demo_moderation) =
         ([Ev verify_jwt_in_request; Ev (query_param_to_set "statuses");
           Ev get_jwt_identity; Ev (get_page demo_moderation);
           Ev (get_all_posts "e-1" 1 statuses true)],
          Returned (mkCountedPosts [] 0, 200))).
Proof.
  split.
  - apply (proj1 (PostModeration_get_statuses (demo_env demo_moderation_bad)
                    demo_moderation_bad ["posted"; "draft"]%string eq_refl eq_refl)).
    exists "draft"%string. split; [right; left|].
    split; [discriminate|]. intros []; discriminate.
  - destruct (proj2 (PostModeration_get_statuses (demo_env demo_moderation)
                       demo_moderation ["posted"; ""; "rejected"]%string eq_refl eq_refl))
      as (statuses & Hchar & Hrun).
    + intros s Hin Hne.
      apply elem_of_cons in Hin as [->|Hin]; [by exists posted|].
      apply elem_of_cons in Hin as [->|Hin]; [done|].
      apply list_elem_of_singleton in Hin as ->. by exists rejected.
    + exists statuses. split; [exact Hchar|].
      exact (Hrun "e-1"%string 1 eq_refl eq_refl).
Defined.

(** [types=admin,boss] is refused; [types=admin,moderator] is passed on as
    a set. *)
Lemma AuthRefresh_get_fired_types_witness :
  (∃ t, t ∈ ["admin"; "boss"]%string ∧ DemoType_call t = None
        ∧ run (demo_env demo_fired_bad) (AuthRefresh_get_fired DemoType_call demo_fired_bad) =
          ([Ev verify_jwt_in_request; Ev (query_param_to_set "types")],
           Aborted 400 ("Incorrect employee type '" ++ t ++ "'")%string))
  ∧ (∃ types : gset DemoType,
       (∀ T, T ∈ types ↔
             ∃ t, t ∈ ["admin"; "moderator"]%string ∧ DemoType_call t = Some T)
       ∧ run (demo_env demo_fired) (AuthRefresh_get_fired DemoType_call demo_fired) =
         ([Ev verify_jwt_in_request; Ev (query_param_to_set "types");
           Ev (get_uuid (of_request demo_fired));
           Ev (get_fired_moderators "s-1" types)],
          Returned ([], 200))).
Proof.
  split.
  - apply (proj1 (AuthRefresh_get_fired_types DemoType_call (demo_env demo_fired_bad)
                    demo_fired_bad ["admin"; "boss"]%string eq_refl eq_refl)).
    exists "boss"%string. split; [right; left|reflexivity].
  - destruct (proj2 (AuthRefresh_get_fired_types DemoType_call (demo_env demo_fired)
                       demo_fired ["admin"; "moderator"]%string eq_refl eq_refl))
      as (types & Hchar & Hrun).
    + intros t Hin.
      apply elem_of_cons in Hin as [->|Hin]; [by exists demo_admin|].
      apply list_elem_of_singleton in Hin as ->. by exists demo_moderator.
    + exists types. split; [exact Hchar|].
      exact (Hrun "s-1"%string eq_refl).
Defined.

(** [start_month=-1] holds a minus sign. *)
Lemma PostStat_get_non_integer_dates_witness :
  run (demo_env demo_statistics_negative) (PostStat_get demo_statistics_negative) =
  ([Ev verify_jwt_in_request; Ev (query_param_to_set "ids")],
   Aborted 400 "Date values must be integers").
Proof.
  apply (PostStat_get_non_integer_dates (demo_env demo_statistics_negative)
           demo_statistics_negative [""]%string "start_month" eq_refl eq_refl).
  - right. left.
  - right. right. exists "-"%char. split; [left; reflexivity|]. split; reflexivity.
Defined.

(** [ids=s-1] restricts the statistics to subunit [s-1]; without [ids] the
    filter is [None]. *)
Lemma PostStat_get_subunit_filter_witness :
  run (demo_env demo_statistics) (PostStat_get demo_statistics) =
  ([Ev verify_jwt_in_request; Ev (query_param_to_set "ids");
    Ev (get_uuid (of_str "s-1"));
    Ev (get_statistics 2020 11 2020 12 (Some ["s-1"%string]))],
   Returned ([], 200))
  ∧ run (demo_env demo_statistics_all) (PostStat_get demo_statistics_all) =
    ([Ev verify_jwt_in_request; Ev (query_param_to_set "ids");
      Ev (get_statistics 2020 11 2020 12 None)],
     Returned ([], 200)).
Proof.
  split.
  - apply (proj1 (PostStat_get_subunit_filter (demo_env demo_statistics)
                    demo_statistics ["s-1"]%string eq_refl eq_refl eq_refl)
             ["s-1"]%string).
    + discriminate.
    + intros Hin. apply list_elem_of_singleton in Hin. discriminate Hin.
    + repeat constructor.
  - apply (proj1 (proj2 (PostStat_get_subunit_filter (demo_env demo_statistics_all)
                           demo_statistics_all [""]%string eq_refl eq_refl eq_refl))).
    right. left.
Defined.

(** [ids=s-1,] names subunit [s-1]: the set read is not empty and every
    element of it resolves, yet the statistics are asked of all subunits,
    because one element is the empty string.  The filter is not the supplied
    set. *)
Lemma PostStat_get_empty_id_drops_filter :
  ¬ (∀ (env : Env DemoType) request ids_raw us,
       env _ verify_jwt_in_request = Returned tt →
       env _ (query_param_to_set "ids") = Returned ids_raw →
       forallb ascii_digits
         [args_get request "start_year" ""; args_get request "start_month" "";
          args_get request "end_year" ""; args_get request "end_month" ""] = true →
       ids_raw ≠ [] →
       Forall2 (fun e_id u => env _ (get_uuid (of_str e_id)) = Returned u) ids_raw us →
       ∃ trace sy sm ey em out,
         run env (PostStat_get request) =
         ((trace ++ [Ev (get_statistics sy sm ey em (Some us))])%list, out)).
Proof.
  intros Hclaim.
  destruct (Hclaim (demo_env demo_statistics_empty_id) demo_statistics_empty_id
              ["s-1"; ""]%string ["s-1"; ""]%string)
    as (trace & sy & sm & ey & em & out & Hrun).
  - reflexivity.
  - reflexivity.
  - reflexivity.
  - discriminate.
  - repeat constructor.
  - assert (Hcalls :
      (run (demo_env demo_statistics_empty_id) (PostStat_get demo_statistics_empty_id)).1 =
      ([Ev verify_jwt_in_request; Ev (query_param_to_set "ids")]
         ++ [Ev (get_statistics 2020 11 2020 12 None)])%list) by reflexivity.
    rewrite Hrun in Hcalls. cbn [fst] in Hcalls.
    apply app_inj_tail in Hcalls as [_ Hlast].
    set (filtered := fun e : Event DemoType =>
           match e with
           | Ev (get_statistics _ _ _ _ (Some _)) => true
           | _ => false
           end).
    apply (f_equal filtered) in Hlast. discriminate Hlast.
Qed.

(** [of_employee] answers without reading a page number, so the three
    listings are not all paginated. *)
Lemma Post_get_of_employee_not_paginated :
  ¬ (reads_page (EmployeeType:=DemoType) PostModeration_get
     ∧ reads_page (EmployeeType:=DemoType) ArchivePost_get
     ∧ reads_page (EmployeeType:=DemoType) Post_get_of_employee).
Proof.
  intros (_ & _ & Hpage).
  assert (Hrun : run (demo_env demo_of_employee) (Post_get_of_employee demo_of_employee) =
                 ([Ev verify_jwt_in_request; Ev (get_uuid (of_request demo_of_employee));
                   Ev (get_all_employee_posts "e-1")],
                  Returned ([demo_post "p-1" posted], 200)))
    by reflexivity.
  apply Hpage in Hrun. discriminate Hrun.
Qed.

(** The archived listing of page 1, and the posts of employee [e-1]. *)
Lemma listings_read_only_archived_and_moderation_paginated_witness :
  run (demo_env demo_moderation) (ArchivePost_get demo_moderation) =
  ([Ev verify_jwt_in_request; Ev (get_page demo_moderation); Ev (get_archived_posts 1)],
   Returned (mkCountedPosts [demo_post "p-1" archived] 1, 200))
  ∧ run (demo_env demo_of_employee) (Post_get_of_employee demo_of_employee) =
    ([Ev verify_jwt_in_request; Ev (get_uuid (of_request demo_of_employee));
      Ev (get_all_employee_posts "e-1")],
     Returned ([demo_post "p-1" posted], 200)).
Proof.
  split.
  - apply (proj1 (proj2 (listings_read_only_archived_and_moderation_paginated
                           (demo_env demo_moderation) demo_moderation) eq_refl) 1 eq_refl).
  - apply (proj2 (proj2 (proj2 (listings_read_only_archived_and_moderation_paginated
                                  (demo_env demo_of_employee) demo_of_employee) eq_refl))
             "e-1"%string eq_refl).
Defined.

(** A start month of -1 is outside 1..12, and the request is answered 400,
    not 422. *)
Lemma PostStat_get_negative_month_not_422 :
  ¬ (∀ request sy sm ey em,
       int (args_get request "start_year" "") = Some sy →
       int (args_get request "start_month" "") = Some sm →
       int (args_get request "end_year" "") = Some ey →
       int (args_get request "end_month" "") = Some em →
       date_precedes (ey, em) (sy, sm) = true
       ∨ valid_month sm = false ∨ valid_month em = false →
       ∃ description,
         (run (demo_store_env request) (PostStat_get request)).2 =
         Aborted 422 description).
Proof.
  intros Hclaim.
  destruct (Hclaim demo_statistics_negative 2020 (-1) 2020 12
              eq_refl eq_refl eq_refl eq_refl) as [description Hrun].
  - right. left. reflexivity.
  - vm_compute in Hrun. discriminate Hrun.
Qed.

(** From 2020-12 to 2020-11 is refused; from 2020-11 to 2020-12 for subunit
    [s-1] returns one entry. *)
Lemma PostStat_get_statistics_witness :
  (run (demo_store_env demo_statistics_reversed) (PostStat_get demo_statistics_reversed)).2 =
  Aborted 422 "Invalid date given"
  ∧ ∃ stats : Statistics,
      (run (demo_store_env demo_statistics) (PostStat_get demo_statistics)).2 =
      Returned (stats, 200)
      ∧ List.length stats = 1%nat.
Proof.
  assert (Hfilter : ∀ request,
            subunit_filter (demo_env request) ["s-1"]%string (Some ["s-1"]%string)).
  { intros request. split; [discriminate|]. split; [|repeat constructor].
    intros Hin. apply list_elem_of_singleton in Hin. discriminate Hin. }
  split.
  - apply (proj1 (PostStat_get_statistics (demo_env demo_statistics_reversed) demo_store
                    "p-new" (2020, 11) demo_statistics_reversed ["s-1"]%string
                    (Some ["s-1"]%string) eq_refl eq_refl eq_refl (Hfilter _))).
    left. reflexivity.
  - destruct (proj2 (PostStat_get_statistics (demo_env demo_statistics) demo_store
                       "p-new" (2020, 11) demo_statistics ["s-1"]%string
                       (Some ["s-1"]%string) eq_refl eq_refl eq_refl (Hfilter _))
                eq_refl eq_refl eq_refl) as (stats & Hrun & Hlen & _).
    exists stats. split; [exact Hrun|exact Hlen].
Defined.

(** The example of section 8: ten posts in 2020-11 and none in 2020-12. *)
Example PostStat_get_demo_store :
  (run (demo_store_env demo_statistics) (PostStat_get demo_statistics)).2 =
  Returned ([("IT department"%string, [((2020, 11), 10); ((2020, 12), 0)])], 200).
Proof. reflexivity. Qed.

(** The Arabic-Indic digit three passes the date check and is read as 3;
    superscript two passes it as well, and [int] then raises, after the IDs
    have been converted. *)
Example PostStat_get_unicode_digits :
  run (demo_env demo_statistics_arabic) (PostStat_get demo_statistics_arabic) =
  ([Ev verify_jwt_in_request; Ev (query_param_to_set "ids");
    Ev (get_statistics 3 11 2020 12 None)],
   Returned ([], 200))
  ∧ run (demo_env demo_statistics_superscript) (PostStat_get demo_statistics_superscript) =
    ([Ev verify_jwt_in_request; Ev (query_param_to_set "ids");
      Ev (get_uuid (of_str "s-1"))],
     Aborted 500 "Internal Server Error").
Proof. split; reflexivity. Qed.

End OnTheOrganisation.

(** ** Properties of the remaining handlers *)

Section MoreProperties.

Context {EmployeeType : Type} `{Countable EmployeeType}.
Context (EmployeeType_call : string → option EmployeeType).
Context `{Unicode}.

Implicit Types (env : Env EmployeeType) (world : World EmployeeType) (request : Request).

Lemma serve_invoke {R A : Type} world (op : AllOp A) (f : A → Handler R) :
  serve world (invoke op ≫= f) =
  match world _ op with
  | Returned a => (Inv op :: (serve world (f a)).1, (serve world (f a)).2)
  | Aborted code description => ([Inv op], Aborted code description)
  end.
Proof.
  unfold invoke, mbind, Handler_bind. simpl.
  destruct (world A op) as [a|]; [|done]. by destruct (serve world (f a)).
Qed.

Lemma serve_bind {R S : Type} world (h : Handler R) (f : R → Handler S) :
  serve world (h ≫= f) =
  match serve world h with
  | (trace, Returned r) =>
      let '(trace', out) := serve world (f r) in ((trace ++ trace')%list, out)
  | (trace, Aborted code description) => (trace, Aborted code description)
  end.
Proof.
  induction h as [r|code description|A op k IH]; simpl.
  - by destruct (serve world (f r)).
  - done.
  - unfold mbind, Handler_bind in *. simpl.
    destruct (world A op) as [a|code description]; [|done].
    rewrite IH. destruct (serve world (k a)) as [trace [r|code description]]; [|done].
    by destruct (serve world (f r)).
Qed.

(** A handler of the first part makes the same calls and ends the same way
    over all calls. *)
Lemma serve_lift {R : Type} world (p : Prog R) :
  serve world (lift p) =
  (lift_event <$> (run (restrict world) p).1, (run (restrict world) p).2).
Proof.
  induction p as [r|code description|A op k IH]; simpl; [done..|].
  unfold restrict at 1 3.
  destruct (world A (shared op)) as [a|]; [|done].
  rewrite IH. by destruct (run (restrict world) (k a)).
Qed.

Lemma serve_refused {R : Type} world (handler : Handler R) code description :
  world _ (shared verify_jwt_in_request) = Aborted code description →
  serve world (with_jwt_required handler) =
  ([Inv (shared verify_jwt_in_request)], Aborted code description).
Proof. intros Hjwt. unfold with_jwt_required. by rewrite serve_invoke, Hjwt. Qed.

Lemma run_refused {R : Type} env (handler : Prog R) code description :
  env _ verify_jwt_in_request = Aborted code description →
  run env (jwt_required handler) = ([Ev verify_jwt_in_request], Aborted code description).
Proof. intros Hjwt. unfold jwt_required. by rewrite run_call, Hjwt. Qed.

(** X1: when the check of the access token raises, each handler behind
    [@jwt_required] ends with that error after the check alone; the refresh
    handler does so on its own check of the refresh token; the login
    handler checks no token. *)
Theorem token_check_comes_first world request payload create code description :
  (world _ (shared verify_jwt_in_request) = Aborted code description →
   let refused (R : Type) : list (Invocation EmployeeType) * Outcome R :=
     ([Inv (shared verify_jwt_in_request)], Aborted code description) in
   serve world (Employee_get request) = refused _
   ∧ serve world (Employee_put request payload) = refused _
   ∧ serve world (Employee_post payload) = refused _
   ∧ serve world EmployeeId_get = refused _
   ∧ serve world (lift (AuthRefresh_get_fired EmployeeType_call request)) = refused _
   ∧ serve world AuthRefresh_get_multiple = refused _
   ∧ serve world (lift (Post_post create)) = refused _
   ∧ serve world (Post_put request payload) = refused _
   ∧ serve world (Post_get request) = refused _
   ∧ serve world (Post_delete request) = refused _
   ∧ serve world (lift (ApprovePost_post request)) = refused _
   ∧ serve world (lift (ApprovePost_delete request)) = refused _
   ∧ serve world (lift (ApprovePost_post_return request)) = refused _
   ∧ serve world (lift (ApprovePost_post_reject request)) = refused _
   ∧ serve world (lift (ArchivePost_post request)) = refused _
   ∧ serve world (lift (ArchivePost_get request)) = refused _
   ∧ serve world (lift (ArchivePost_delete request)) = refused _
   ∧ serve world (lift (Post_get_of_employee request)) = refused _
   ∧ serve world (lift (PostStat_get request)) = refused _
   ∧ serve world (lift (PostModeration_get request)) = refused _)
  ∧ (world _ (shared verify_jwt_refresh_token_in_request) = Aborted code description →
     serve world (lift AuthRefresh_post) =
     ([Inv (shared verify_jwt_refresh_token_in_request)], Aborted code description))
  ∧ existsb is_token_check (serve world (Auth_post payload)).1 = false.
Proof.
  split; [|split].
  - intros Hjwt refused. subst refused.
    assert (Hold : ∀ (R : Type) (p : Prog R),
              serve world (lift (jwt_required p)) =
              ([Inv (shared verify_jwt_in_request)], Aborted code description)).
    { intros R p. rewrite serve_lift, (run_refused (restrict world) p code description); done. }
    unfold Employee_get, Employee_put, Employee_post, EmployeeId_get,
      AuthRefresh_get_multiple, Post_put, Post_get, Post_delete,
      AuthRefresh_get_fired, Post_post, ApprovePost_post, ApprovePost_delete,
      ApprovePost_post_return, ApprovePost_post_reject, ArchivePost_post,
      ArchivePost_get, ArchivePost_delete, Post_get_of_employee, PostStat_get,
      PostModeration_get.
    rewrite !(serve_refused world _ code description Hjwt), !Hold.
    repeat split.
  - intros Hjwt. rewrite serve_lift. unfold AuthRefresh_post, jwt_refresh_token_required.
    assert (Hrefresh : restrict world _ verify_jwt_refresh_token_in_request =
                       Aborted code description) by exact Hjwt.
    by rewrite run_call, Hrefresh.
  - unfold Auth_post. rewrite serve_invoke. by destruct (world _ (get_token payload)).
Qed.

Lemma serve_multiple_check_ids world ids :
  (∀ e, e ∈ ids → ∃ u, world _ (shared (get_uuid (of_str e))) = Returned u) →
  serve world (multiple_check_ids ids) =
  ((fun e => Inv (shared (get_uuid (of_str e)))) <$> ids, Returned tt).
Proof.
  induction ids as [|e rest IH]; intros Hall; [done|].
  cbn [multiple_check_ids]. rewrite serve_invoke.
  destruct (Hall e) as [u ->]; [by left|].
  rewrite IH; [done|]. intros e' Hin. apply Hall. by right.
Qed.

Lemma serve_multiple_check_ids_rejected world accepted e rest code description :
  (∀ x, x ∈ accepted → ∃ u, world _ (shared (get_uuid (of_str x))) = Returned u) →
  world _ (shared (get_uuid (of_str e))) = Aborted code description →
  serve world (multiple_check_ids (accepted ++ e :: rest)) =
  (((fun x => Inv (shared (get_uuid (of_str x)))) <$> accepted)
     ++ [Inv (shared (get_uuid (of_str e)))],
   Aborted code description)%list.
Proof.
  intros Hall Hbad.
  induction accepted as [|x accepted IH]; cbn [app multiple_check_ids];
    rewrite serve_invoke.
  - by rewrite Hbad.
  - destruct (Hall x) as [u ->]; [by left|].
    rewrite IH; [done|]. intros x' Hin. apply Hall. by right.
Qed.

(** X2: the [/employee/multiple] handler puts every ID of the [ids] set
    through [get_uuid] before it calls the service, and hands the service
    the set as read, not what [get_uuid] returned; the first ID that
    [get_uuid] turns down ends the request with that error, the service
    not called. *)
Theorem AuthRefresh_get_multiple_checks_ids world ids :
  world _ (shared verify_jwt_in_request) = Returned tt →
  world _ (shared (query_param_to_set "ids")) = Returned ids →
  ((∀ e, e ∈ ids → ∃ u, world _ (shared (get_uuid (of_str e))) = Returned u) →
   serve world AuthRefresh_get_multiple =
   ([Inv (shared verify_jwt_in_request); Inv (shared (query_param_to_set "ids"))]
      ++ ((fun e => Inv (shared (get_uuid (of_str e)))) <$> ids)
      ++ [Inv (get_multiple_employees ids)],
    with_code 200 (world _ (get_multiple_employees ids)))%list)
  ∧ (∀ accepted e rest code description,
       ids = (accepted ++ e :: rest)%list →
       (∀ x, x ∈ accepted → ∃ u, world _ (shared (get_uuid (of_str x))) = Returned u) →
       world _ (shared (get_uuid (of_str e))) = Aborted code description →
       serve world AuthRefresh_get_multiple =
       ([Inv (shared verify_jwt_in_request); Inv (shared (query_param_to_set "ids"))]
          ++ ((fun x => Inv (shared (get_uuid (of_str x)))) <$> accepted)
          ++ [Inv (shared (get_uuid (of_str e)))],
        Aborted code description)%list).
Proof.
  intros Hjwt Hids. unfold AuthRefresh_get_multiple, with_jwt_required.
  rewrite serve_invoke, Hjwt, serve_invoke, Hids. split.
  - intros Hall. rewrite serve_bind, (serve_multiple_check_ids _ _ Hall).
    rewrite serve_invoke.
    destruct (world _ (get_multiple_employees ids)); simpl; by rewrite ?app_nil_r.
  - intros accepted e rest code description -> Hall Hbad.
    by rewrite serve_bind, (serve_multiple_check_ids_rejected _ _ _ _ _ _ Hall Hbad).
Qed.

Lemma run_get_uuids_rejected env accepted e rest code description :
  (∀ x, x ∈ accepted → ∃ u, env _ (get_uuid (of_str x)) = Returned u) →
  env _ (get_uuid (of_str e)) = Aborted code description →
  run env (get_uuids (accepted ++ e :: rest)) =
  (((fun x => Ev (get_uuid (of_str x))) <$> accepted) ++ [Ev (get_uuid (of_str e))],
   Aborted code description)%list.
Proof.
  intros Hall Hbad.
  induction accepted as [|x accepted IH]; cbn [app get_uuids]; rewrite run_call.
  - by rewrite Hbad.
  - destruct (Hall x) as [u ->]; [by left|].
    rewrite run_bind, IH; [done|]. intros x' Hin. apply Hall. by right.
Qed.

(** X3: in a statistics request whose dates pass the date check and whose
    set of IDs has no empty element, the first ID that [get_uuid] turns
    down ends the request with that error: [get_statistics] is not called. *)
Theorem PostStat_get_rejected_id env request accepted e rest code description :
  env _ verify_jwt_in_request = Returned tt →
  env _ (query_param_to_set "ids") = Returned (accepted ++ e :: rest)%list →
  forallb isdigit
    [args_get request "start_year" ""; args_get request "start_month" "";
     args_get request "end_year" ""; args_get request "end_month" ""] = true →
  "" ∉ (accepted ++ e :: rest)%list →
  (∀ x, x ∈ accepted → ∃ u, env _ (get_uuid (of_str x)) = Returned u) →
  env _ (get_uuid (of_str e)) = Aborted code description →
  run env (PostStat_get request) =
  ([Ev verify_jwt_in_request; Ev (query_param_to_set "ids")]
     ++ ((fun x => Ev (get_uuid (of_str x))) <$> accepted)
     ++ [Ev (get_uuid (of_str e))],
   Aborted code description)%list.
Proof.
  intros Hjwt Hraw Hdigits Hempty Hall Hbad. unfold PostStat_get.
  rewrite (run_jwt_required _ _ Hjwt). cbv zeta. rewrite run_call, Hraw, Hdigits.
  cbn [negb fst snd].
  rewrite bool_decide_eq_false_2 by by destruct accepted.
  apply forallb_truthy in Hempty. rewrite Hempty. cbn [negb andb].
  by rewrite run_bind, run_bind, (run_get_uuids_rejected _ _ _ _ _ _ Hall Hbad).
Qed.

(** X4: the moderation listing asks for reverse order exactly when the
    [reverse] parameter is absent or is the string [true]; any other value,
    [True] or [1] among them, asks for forward order. *)
Theorem PostModeration_get_reverse env request statuses_raw caller page :
  env _ verify_jwt_in_request = Returned tt →
  env _ (query_param_to_set "statuses") = Returned statuses_raw →
  (∀ s, s ∈ statuses_raw → s ≠ "" → ∃ S, PostStatus_name S = s) →
  env _ get_jwt_identity = Returned caller →
  env _ (get_page request) = Returned page →
  ∃ statuses reverse,
    run env (PostModeration_get request) =
    ([Ev verify_jwt_in_request; Ev (query_param_to_set "statuses");
      Ev get_jwt_identity; Ev (get_page request);
      Ev (get_all_posts caller page statuses reverse)],
     with_code 200 (env _ (get_all_posts caller page statuses reverse)))
    ∧ (reverse = true ↔
       assoc "reverse" (args request) = None
       ∨ assoc "reverse" (args request) = Some "true"%string).
Proof.
  intros Hjwt Hraw Hall Hid Hpage.
  destruct (moderation_statuses_named (EmployeeType:=EmployeeType) statuses_raw Hall) as (statuses & Heq & _).
  exists statuses, (String.eqb (args_get request "reverse" "true") "true").
  split; [by apply (run_PostModeration_get _ _ statuses_raw)|].
  unfold args_get. destruct (assoc "reverse" (args request)) as [v|].
  - rewrite String.eqb_eq. split; [intros ->; by right|].
    intros [?|[= ->]]; done.
  - split; [by left|done].
Qed.

Lemma moderation_statuses_all_empty statuses_raw statuses :
  (∀ s, s ∈ statuses_raw → s = ""%string) →
  moderation_statuses (EmployeeType:=EmployeeType) statuses_raw statuses = Ret statuses.
Proof.
  induction statuses_raw as [|status rest IH]; intros Hall; [done|].
  simpl. rewrite (Hall status) by by left. simpl.
  apply IH. intros s Hin. apply Hall. by right.
Qed.

(** X5: a moderation listing whose [statuses] set names no status (it is
    empty, or holds only the empty string) is not refused: [get_all_posts]
    is called with the empty set of statuses. *)
Theorem PostModeration_get_no_status_named env request statuses_raw caller page :
  env _ verify_jwt_in_request = Returned tt →
  env _ (query_param_to_set "statuses") = Returned statuses_raw →
  (∀ s, s ∈ statuses_raw → s = ""%string) →
  env _ get_jwt_identity = Returned caller →
  env _ (get_page request) = Returned page →
  let reverse := String.eqb (args_get request "reverse" "true") "true" in
  run env (PostModeration_get request) =
  ([Ev verify_jwt_in_request; Ev (query_param_to_set "statuses");
    Ev get_jwt_identity; Ev (get_page request);
    Ev (get_all_posts caller page ∅ reverse)],
   with_code 200 (env _ (get_all_posts caller page ∅ reverse))).
Proof.
  intros Hjwt Hraw Hall Hid Hpage.
  apply (run_PostModeration_get _ _ statuses_raw); [done..| |done|done].
  by apply moderation_statuses_all_empty.
Qed.

(** X6: the loop of the moderation listing does not depend on the order in
    which the [statuses] set is walked, nor on repetitions: two walks over
    the same elements give the same set of statuses, or both end in 422,
    each naming an element of the set that is not empty and is not the name
    of a status. *)
Theorem moderation_statuses_order_independent (walk walk' : list string) :
  (∀ s, s ∈ walk ↔ s ∈ walk') →
  (∃ statuses : gset PostStatus,
     moderation_statuses (EmployeeType:=EmployeeType) walk ∅ = Ret statuses
     ∧ moderation_statuses (EmployeeType:=EmployeeType) walk' ∅ = Ret statuses)
  ∨ (∃ s s',
       (s ∈ walk ∧ s ≠ ""%string ∧ PostStatus_getitem s = None)
       ∧ (s' ∈ walk ∧ s' ≠ ""%string ∧ PostStatus_getitem s' = None)
       ∧ moderation_statuses (EmployeeType:=EmployeeType) walk ∅ =
         Abort 422 ("Incorrect status value '" ++ s ++ "'")%string
       ∧ moderation_statuses (EmployeeType:=EmployeeType) walk' ∅ =
         Abort 422 ("Incorrect status value '" ++ s' ++ "'")%string).
Proof.
  intros Hsame.
  destruct (decide (Exists (fun s => s ≠ ""%string ∧ PostStatus_getitem s = None) walk))
    as [Hbad|Hgood].
  - right. apply Exists_exists in Hbad as (s0 & Hin & Hne & Hnone).
    destruct (moderation_statuses_bad (EmployeeType:=EmployeeType) walk ∅)
      as (s & ? & ? & ? & ?); [by eauto|].
    destruct (moderation_statuses_bad (EmployeeType:=EmployeeType) walk' ∅)
      as (s' & Hin' & ? & ? & ?).
    { exists s0. split; [by apply Hsame|done]. }
    exists s, s'. split; [done|]. split; [|done].
    split; [by apply Hsame|done].
  - left.
    assert (Hall : ∀ s, s ∈ walk → s ≠ ""%string → is_Some (PostStatus_getitem s)).
    { intros s Hin Hne. destruct (PostStatus_getitem s) eqn:Hs; [done|].
      destruct Hgood. apply Exists_exists. by exists s. }
    destruct (moderation_statuses_ok (EmployeeType:=EmployeeType) walk ∅ Hall) as (statuses & Heq & Hchar).
    destruct (moderation_statuses_ok (EmployeeType:=EmployeeType) walk' ∅) as (statuses' & Heq' & Hchar').
    { intros s Hin. apply Hall. by apply Hsame. }
    exists statuses. split; [done|]. rewrite Heq'. f_equal.
    apply set_eq. intros S. rewrite Hchar, Hchar'.
    split; (intros [?|(s & Hin & Hs)]; [by left|right; exists s; split; [by apply Hsame|done]]).
Qed.

(** X7: the loop of the fired-employees listing does not depend on the
    order in which the [types] set is walked, nor on repetitions: two walks
    over the same elements give the same set of types, or both end in 400,
    each naming an element of the set that is not the value of an employee
    type. *)
Theorem fired_types_order_independent (walk walk' : list string) :
  (∀ t, t ∈ walk ↔ t ∈ walk') →
  (∃ types : gset EmployeeType,
     fired_types EmployeeType_call walk ∅ = Ret types
     ∧ fired_types EmployeeType_call walk' ∅ = Ret types)
  ∨ (∃ t t',
       (t ∈ walk ∧ EmployeeType_call t = None)
       ∧ (t' ∈ walk ∧ EmployeeType_call t' = None)
       ∧ fired_types EmployeeType_call walk ∅ =
         Abort 400 ("Incorrect employee type '" ++ t ++ "'")%string
       ∧ fired_types EmployeeType_call walk' ∅ =
         Abort 400 ("Incorrect employee type '" ++ t' ++ "'")%string).
Proof.
  intros Hsame.
  destruct (decide (Exists (fun t => EmployeeType_call t = None) walk)) as [Hbad|Hgood].
  - right. apply Exists_exists in Hbad as (t0 & Hin & Hnone).
    destruct (fired_types_bad EmployeeType_call walk ∅) as (t & ? & ? & ?); [by eauto|].
    destruct (fired_types_bad EmployeeType_call walk' ∅) as (t' & Hin' & ? & ?).
    { exists t0. split; [by apply Hsame|done]. }
    exists t, t'. split; [done|]. split; [|done].
    split; [by apply Hsame|done].
  - left.
    assert (Hall : ∀ t, t ∈ walk → is_Some (EmployeeType_call t)).
    { intros t Hin. destruct (EmployeeType_call t) eqn:Ht; [done|].
      destruct Hgood. apply Exists_exists. by exists t. }
    destruct (fired_types_ok EmployeeType_call walk ∅ Hall) as (types & Heq & Hchar).
    destruct (fired_types_ok EmployeeType_call walk' ∅) as (types' & Heq' & Hchar').
    { intros t Hin. apply Hall. by apply Hsame. }
    exists types. split; [done|]. rewrite Heq'. f_equal.
    apply set_eq. intros T. rewrite Hchar, Hchar'.
    split; (intros [?|(t & Hin & Ht)]; [by left|right; exists t; split; [by apply Hsame|done]]).
Qed.

(** Past the date check the handler makes a further call, unless [int]
    raises on a date before any call is due. *)
Lemma run_PostStat_get_past_gate env request ids_raw :
  env _ verify_jwt_in_request = Returned tt →
  env _ (query_param_to_set "ids") = Returned ids_raw →
  forallb isdigit
    [args_get request "start_year" ""; args_get request "start_month" "";
     args_get request "end_year" ""; args_get request "end_month" ""] = true →
  (∃ e trace,
     (run env (PostStat_get request)).1 =
     Ev verify_jwt_in_request :: Ev (query_param_to_set "ids") :: e :: trace)
  ∨ run env (PostStat_get request) =
    ([Ev verify_jwt_in_request; Ev (query_param_to_set "ids")],
     Aborted 500 "Internal Server Error").
Proof.
  intros Hjwt Hraw Hdigits. unfold PostStat_get.
  rewrite (run_jwt_required _ _ Hjwt). cbv zeta. rewrite run_call, Hraw, Hdigits.
  cbn [negb fst snd].
  assert (Hall : ∀ subunit_ids,
    (∃ e trace,
       (run env (sy ← int_or_raise (args_get request "start_year" "");
                 sm ← int_or_raise (args_get request "start_month" "");
                 ey ← int_or_raise (args_get request "end_year" "");
                 em ← int_or_raise (args_get request "end_month" "");
                 r ← call (get_statistics sy sm ey em subunit_ids);
                 Ret (r, 200))).1 = e :: trace)
    ∨ run env (sy ← int_or_raise (args_get request "start_year" "");
               sm ← int_or_raise (args_get request "start_month" "");
               ey ← int_or_raise (args_get request "end_year" "");
               em ← int_or_raise (args_get request "end_month" "");
               r ← call (get_statistics sy sm ey em subunit_ids);
               Ret (r, 200)) = ([], Aborted 500 "Internal Server Error")).
  { intros subunit_ids. unfold int_or_raise.
    destruct (int (args_get request "start_year" "")); [|by right].
    destruct (int (args_get request "start_month" "")); [|by right].
    destruct (int (args_get request "end_year" "")); [|by right].
    destruct (int (args_get request "end_month" "")); [|by right].
    left. rewrite !run_ret, run_call.
    destruct (env _ (get_statistics _ _ _ _ _)); by eexists _, _. }
  destruct ids_raw as [|x rest].
  - rewrite bool_decide_eq_true_2 by done. cbn [negb andb]. rewrite run_ret.
    destruct (Hall None) as [(e & trace & Htrace)|Hraise];
      [left; rewrite Htrace; by eexists _, _|right; by rewrite Hraise].
  - destruct (negb (bool_decide (x :: rest = [])) && forallb truthy (x :: rest)).
    + left. cbn [get_uuids]. rewrite run_bind, run_bind, run_call.
      destruct (env _ (get_uuid (of_str x))) as [u|]; [|by eexists _, _].
      destruct (run env (get_uuids rest ≫= _)) as [trace [us|]]; cbn [fst snd];
        [|by eexists _, _].
      cbn [run app]. destruct (run env _) as [trace' out]. by eexists _, _.
    + rewrite run_ret.
      destruct (Hall None) as [(e & trace & Htrace)|Hraise];
        [left; rewrite Htrace; by eexists _, _|right; by rewrite Hraise].
Qed.

(** With four non-empty strings of '0'..'9' the handler goes on past the
    date check. *)
Lemma run_PostStat_get_ascii_digits env request ids_raw :
  env _ verify_jwt_in_request = Returned tt →
  env _ (query_param_to_set "ids") = Returned ids_raw →
  forallb ascii_digits
    [args_get request "start_year" ""; args_get request "start_month" "";
     args_get request "end_year" ""; args_get request "end_month" ""] = true →
  ∃ e trace,
    (run env (PostStat_get request)).1 =
    Ev verify_jwt_in_request :: Ev (query_param_to_set "ids") :: e :: trace.
Proof.
  intros Hjwt Hraw Hdigits. unfold PostStat_get.
  rewrite (run_jwt_required _ _ Hjwt). cbv zeta.
  rewrite run_call, Hraw, (forallb_ascii_digits_isdigit _ Hdigits).
  simpl in Hdigits. rewrite !andb_true_iff in Hdigits.
  destruct Hdigits as (Hsy & Hsm & Hey & Hem & _).
  cbn [negb fst snd].
  rewrite (int_or_raise_ascii_digits _ Hsy), (int_or_raise_ascii_digits _ Hsm),
    (int_or_raise_ascii_digits _ Hey), (int_or_raise_ascii_digits _ Hem).
  destruct (negb (bool_decide (ids_raw = [])) && forallb truthy ids_raw) eqn:Hcond.
  - destruct ids_raw as [|x rest]; [done|].
    cbn [get_uuids]. rewrite run_bind, run_bind, run_call.
    destruct (env _ (get_uuid (of_str x))) as [u|]; [|by eexists _, _].
    destruct (run env (get_uuids rest ≫= _)) as [trace [us|]]; cbn [fst snd];
      [|by eexists _, _].
    cbn [run app]. destruct (run env _) as [trace' out]. by eexists _, _.
  - rewrite !run_ret, run_call.
    destruct (env _ (get_statistics _ _ _ _ _)); by eexists _, _.
Qed.

(** X8: an authenticated statistics request stops at the date check, with
    400 "Date values must be integers" and nothing called after reading
    [ids], exactly when one of the four date parameters is empty (missing,
    or given without a value) or holds a character that is no digit to
    [str.isdigit]; with four non-empty strings of '0'..'9' it always goes on
    to a further call. *)
Theorem PostStat_get_date_gate env request ids_raw :
  env _ verify_jwt_in_request = Returned tt →
  env _ (query_param_to_set "ids") = Returned ids_raw →
  (run env (PostStat_get request) =
   ([Ev verify_jwt_in_request; Ev (query_param_to_set "ids")],
    Aborted 400 "Date values must be integers")
   ↔ ∃ param,
       param ∈ ["start_year"; "start_month"; "end_year"; "end_month"]%string
       ∧ (args_get request param "" = ""%string
          ∨ ∃ c, c ∈ decode_utf8 (args_get request param "")
                 ∧ numeric_type c = NoDigit))
  ∧ (forallb ascii_digits
       [args_get request "start_year" ""; args_get request "start_month" "";
        args_get request "end_year" ""; args_get request "end_month" ""] = true →
     ∃ e trace,
       (run env (PostStat_get request)).1 =
       Ev verify_jwt_in_request :: Ev (query_param_to_set "ids") :: e :: trace).
Proof.
  intros Hjwt Hraw. split.
  - destruct (forallb isdigit
                [args_get request "start_year" ""; args_get request "start_month" "";
                 args_get request "end_year" ""; args_get request "end_month" ""])
      eqn:Hdigits.
    + split.
      * intros Hrun.
        destruct (run_PostStat_get_past_gate env request ids_raw Hjwt Hraw Hdigits)
          as [(e & trace & Htrace)|Hraise].
        -- rewrite Hrun in Htrace. simpl in Htrace.
           apply (f_equal List.length) in Htrace. simpl in Htrace. lia.
        -- rewrite Hrun in Hraise. discriminate Hraise.
      * intros (param & Hparam & Hbad). apply isdigit_false_iff in Hbad.
        simpl in Hdigits. rewrite !andb_true_iff in Hdigits.
        destruct Hdigits as (Hsy & Hsm & Hey & Hem & _).
        repeat (apply elem_of_cons in Hparam as [->|Hparam]); [congruence..|].
        by apply elem_of_nil in Hparam.
    + split.
      * intros _. simpl in Hdigits. rewrite !andb_false_iff in Hdigits.
        destruct Hdigits as [Hd|[Hd|[Hd|[Hd|Hd]]]]; [..|done];
          apply isdigit_false_iff in Hd.
        -- exists "start_year"%string. split; [by left|done].
        -- exists "start_month"%string. split; [right; by left|done].
        -- exists "end_year"%string. split; [right; right; by left|done].
        -- exists "end_month"%string. split; [right; right; right; by left|done].
      * intros _. unfold PostStat_get.
        rewrite (run_jwt_required _ _ Hjwt). cbv zeta.
        by rewrite run_call, Hraw, Hdigits.
  - by apply (run_PostStat_get_ascii_digits env request ids_raw).
Qed.

(** X9: unarchiving with a status other than [archived] runs as the
    dedicated action for that status does: to [posted] as approve, to
    [under_consideration] as disapprove, to [returned_for_improvement] as
    return, to [rejected] as reject. *)
Theorem unarchive_runs_as_the_dedicated_action env request :
  (assoc "status" (args request) = Some "posted"%string →
   run env (ArchivePost_delete request) = run env (ApprovePost_post request))
  ∧ (assoc "status" (args request) = Some "under_consideration"%string →
     run env (ArchivePost_delete request) = run env (ApprovePost_delete request))
  ∧ (assoc "status" (args request) = Some "returned_for_improvement"%string →
     run env (ArchivePost_delete request) = run env (ApprovePost_post_return request))
  ∧ (assoc "status" (args request) = Some "rejected"%string →
     run env (ArchivePost_delete request) = run env (ApprovePost_post_reject request)).
Proof.
  unfold ArchivePost_delete, args_get.
  repeat split; by intros ->.
Qed.

Lemma unarchive_status_enum_spec (name : string) :
  name ∈ unarchive_status_enum ↔
  ∃ S, S ≠ archived ∧ PostStatus_getitem name = Some S.
Proof.
  unfold unarchive_status_enum. rewrite list_elem_of_fmap. split.
  - intros (S & -> & Hin). exists S. apply list_elem_of_In, filter_In in Hin as [_ Hne].
    split; [by apply bool_decide_eq_true_1 in Hne|by apply PostStatus_getitem_Some].
  - intros (S & Hne & HS). apply PostStatus_getitem_Some in HS. exists S.
    split; [done|]. apply list_elem_of_In, filter_In.
    split; [destruct S; simpl; repeat ((left; reflexivity) || right)|by apply bool_decide_eq_true_2].
Qed.

(** X10: the values documented as [enum] of the [status] parameter of
    unarchive are exactly those the handler lets through: an authenticated
    request is stopped with 400 "Incorrect status value" if and only if its
    [status] is not one of them; and the moderation loop accepts a set
    exactly when each non-empty element is one of the names documented for
    [statuses]. *)
Theorem documented_statuses_are_the_accepted_ones env request (walk : list string) :
  env _ verify_jwt_in_request = Returned tt →
  (args_get request "status" "" ∉ unarchive_status_enum ↔
   run env (ArchivePost_delete request) =
   ([Ev verify_jwt_in_request], Aborted 400 "Incorrect status value"))
  ∧ ((∃ statuses,
        moderation_statuses (EmployeeType:=EmployeeType) walk ∅ = Ret statuses) ↔
     ∀ s, s ∈ walk → s = ""%string ∨ s ∈ moderation_status_names).
Proof.
  intros Hjwt. split.
  - rewrite unarchive_status_enum_spec. unfold ArchivePost_delete.
    rewrite (run_jwt_required _ _ Hjwt).
    destruct (PostStatus_getitem (args_get request "status" "")) as [S|].
    + destruct (decide (S = archived)) as [->|Hne].
      * split; [done|]. intros _ (S & Hne & [= <-]). done.
      * split; [intros Hno; destruct Hno; by exists S|].
        rewrite run_call. intros Hrun.
        apply (f_equal (fun p => List.length p.1)) in Hrun.
        destruct (env _ get_jwt_identity); simpl in Hrun; lia.
    + split; [done|]. by intros _ (S & _ & ?).
  - split.
    + intros [statuses Heq] s Hin.
      destruct (decide (s = ""%string)) as [|Hne]; [by left|right].
      destruct (PostStatus_getitem s) as [S|] eqn:HS.
      * apply PostStatus_getitem_Some in HS as <-.
        apply list_elem_of_fmap. exists S. split; [done|].
        apply list_elem_of_In. destruct S; simpl; repeat ((left; reflexivity) || right).
      * destruct (moderation_statuses_bad (EmployeeType:=EmployeeType) walk ∅)
          as (s' & _ & _ & _ & Habort); [by eauto|]. congruence.
    + intros Hall.
      destruct (moderation_statuses_ok (EmployeeType:=EmployeeType) walk ∅)
        as (statuses & Heq & _); [|by exists statuses].
      intros s Hin Hne. destruct (Hall s Hin) as [?|Hnamed]; [done|].
      apply list_elem_of_fmap in Hnamed as (S & -> & _).
      exists S. by apply PostStatus_getitem_Some.
Qed.

Lemma Forall_run_bind {R S : Type} (P : Event EmployeeType → Prop) env
    (p : Prog R) (f : R → Prog S) :
  Forall P (run env p).1 → (∀ r, Forall P (run env (f r)).1) →
  Forall P (run env (p ≫= f)).1.
Proof.
  intros Hp Hf. rewrite run_bind.
  destruct (run env p) as [trace [r|]]; [|done].
  specialize (Hf r). destruct (run env (f r)) as [trace' out].
  apply Forall_app. by split.
Qed.

Lemma run_get_uuids_no_statistics env ids_raw :
  Forall (fun e => statistics_dates e = None) (run env (get_uuids ids_raw)).1.
Proof.
  induction ids_raw as [|e_id rest IH]; [by constructor|].
  cbn [get_uuids]. rewrite run_call.
  destruct (env _ (get_uuid (of_str e_id))) as [u|]; cbn [fst];
    [|by repeat constructor].
  constructor; [done|]. apply Forall_run_bind; [done|]. by constructor.
Qed.

(** X11: whatever the request and however the collaborators answer, the
    years and months that the statistics handler hands to [get_statistics]
    are never negative. *)
Theorem PostStat_get_dates_not_negative env request :
  Forall (fun e =>
            match statistics_dates e with
            | Some (sy, sm, ey, em) => 0 ≤ sy ∧ 0 ≤ sm ∧ 0 ≤ ey ∧ 0 ≤ em
            | None => True
            end)
    (run env (PostStat_get request)).1.
Proof.
  unfold PostStat_get, jwt_required. rewrite run_call.
  destruct (env _ verify_jwt_in_request); cbn [fst]; [|by repeat constructor].
  constructor; [done|]. cbv zeta. rewrite run_call.
  destruct (env _ (query_param_to_set "ids")) as [ids_raw|]; cbn [fst];
    [|by repeat constructor].
  constructor; [done|].
  destruct (forallb isdigit _) eqn:Hdigits; cbn [negb]; [|by constructor].
  simpl in Hdigits. rewrite !andb_true_iff in Hdigits.
  destruct Hdigits as (Hsy & Hsm & Hey & Hem & _).
  apply Forall_run_bind.
  { destruct (negb (bool_decide (ids_raw = [])) && forallb truthy ids_raw);
      [|by constructor].
    apply Forall_run_bind; [|by constructor].
    eapply Forall_impl; [apply run_get_uuids_no_statistics|]. by intros e ->. }
  intros subunit_ids. unfold int_or_raise.
  destruct (int (args_get request "start_year" "")) as [sy|] eqn:Hisy;
    [|by constructor].
  destruct (int (args_get request "start_month" "")) as [sm|] eqn:Hism;
    [|by constructor].
  destruct (int (args_get request "end_year" "")) as [ey|] eqn:Hiey;
    [|by constructor].
  destruct (int (args_get request "end_month" "")) as [em|] eqn:Hiem;
    [|by constructor].
  rewrite !run_ret, run_call.
  pose proof (isdigit_int_nonneg _ _ Hsy Hisy).
  pose proof (isdigit_int_nonneg _ _ Hsm Hism).
  pose proof (isdigit_int_nonneg _ _ Hey Hiey).
  pose proof (isdigit_int_nonneg _ _ Hem Hiem).
  destruct (env _ (get_statistics _ _ _ _ _)); simpl; by repeat constructor.
Qed.

Lemma no_call_after_service_cons (i : Invocation EmployeeType) trace :
  is_service i = false →
  no_call_after_service trace = true → no_call_after_service (i :: trace) = true.
Proof.
  unfold no_call_after_service. intros Hi Htrace.
  destruct trace as [|j trace]; [done|].
  change (removelast (i :: j :: trace)) with (i :: removelast (j :: trace)).
  cbn [forallb]. by rewrite Hi, Htrace.
Qed.

Lemma no_call_after_service_app (trace trace' : list (Invocation EmployeeType)) :
  forallb (fun i => negb (is_service i)) trace = true →
  no_call_after_service trace' = true →
  no_call_after_service (trace ++ trace') = true.
Proof.
  intros Hquiet Htrace'. induction trace as [|i trace IH]; [done|].
  cbn [forallb] in Hquiet. apply andb_true_iff in Hquiet as [Hi Hquiet].
  cbn [app]. apply no_call_after_service_cons; [by destruct (is_service i)|by apply IH].
Qed.

Lemma no_call_after_service_quiet (trace : list (Invocation EmployeeType)) :
  forallb (fun i => negb (is_service i)) trace = true →
  no_call_after_service trace = true.
Proof.
  intros Hquiet. rewrite <- (app_nil_r trace).
  by apply no_call_after_service_app.
Qed.

Section OneWorld.

Variable world : World EmployeeType.

(** The trace of a handler has no call after a service call; the trace of
    a handler has no service call. *)
Local Abbreviation tail_only h := (no_call_after_service (serve world h).1 = true).
Local Abbreviation quiet h :=
  (forallb (fun i => negb (is_service i)) (serve world h).1 = true).
Local Abbreviation tail_only_lift p := (tail_only (lift p)).
Local Abbreviation quiet_lift p := (quiet (lift p)).

Lemma tail_only_Invoke {R A : Type} (op : AllOp A) (k : A → Handler R) :
  is_service (Inv op) = false → (∀ a, tail_only (k a)) → tail_only (Invoke op k).
Proof.
  intros Hop Hk. cbn [serve]. destruct (world A op) as [a|]; [|done].
  specialize (Hk a). destruct (serve world (k a)) as [trace out].
  by apply no_call_after_service_cons.
Qed.

Lemma quiet_Invoke {R A : Type} (op : AllOp A) (k : A → Handler R) :
  is_service (Inv op) = false → (∀ a, quiet (k a)) → quiet (Invoke op k).
Proof.
  intros Hop Hk. cbn [serve]. destruct (world A op) as [a|]; cbn [fst forallb].
  - specialize (Hk a). destruct (serve world (k a)) as [trace out].
    cbn [fst forallb] in *. by rewrite Hop, Hk.
  - by rewrite Hop.
Qed.

Lemma tail_only_last {R A : Type} (op : AllOp A) (k : A → Handler R) :
  (∀ a, (serve world (k a)).1 = []) → tail_only (Invoke op k).
Proof.
  intros Hk. cbn [serve]. destruct (world A op) as [a|]; [|done].
  specialize (Hk a). destruct (serve world (k a)) as [trace out].
  cbn [fst] in *. by subst trace.
Qed.

Lemma tail_only_bind {R S : Type} (h : Handler R) (f : R → Handler S) :
  quiet h → (∀ r, tail_only (f r)) → tail_only (h ≫= f).
Proof.
  intros Hh Hf. rewrite serve_bind.
  destruct (serve world h) as [trace [r|]]; cbn [fst] in *;
    [|by apply no_call_after_service_quiet].
  specialize (Hf r). destruct (serve world (f r)) as [trace' out].
  by apply no_call_after_service_app.
Qed.

Lemma tail_only_lift_Call {R A : Type} (op : Op A) (k : A → Prog R) :
  is_service (Inv (shared op)) = false →
  (∀ a, tail_only_lift (k a)) → tail_only_lift (Call op k).
Proof. intros Hop Hk. by apply (tail_only_Invoke (shared op)). Qed.

Lemma quiet_lift_Call {R A : Type} (op : Op A) (k : A → Prog R) :
  is_service (Inv (shared op)) = false →
  (∀ a, quiet_lift (k a)) → quiet_lift (Call op k).
Proof. intros Hop Hk. by apply (quiet_Invoke (shared op)). Qed.

Lemma tail_only_lift_last {R A : Type} (op : Op A) (k : A → Prog R) :
  (∀ a, (run (restrict world) (k a)).1 = []) → tail_only_lift (Call op k).
Proof.
  intros Hk. apply (tail_only_last (shared op)). intros a.
  rewrite serve_lift. cbn [fst]. by rewrite Hk.
Qed.

Lemma tail_only_lift_bind {R S : Type} (p : Prog R) (f : R → Prog S) :
  quiet_lift p → (∀ r, tail_only_lift (f r)) → tail_only_lift (p ≫= f).
Proof.
  intros Hp Hf. rewrite serve_lift, run_bind. rewrite serve_lift in Hp.
  destruct (run (restrict world) p) as [trace [r|]]; cbn [fst] in *;
    [|by apply no_call_after_service_quiet].
  specialize (Hf r). rewrite serve_lift in Hf.
  destruct (run (restrict world) (f r)) as [trace' out]. cbn [fst] in *.
  rewrite fmap_app. by apply no_call_after_service_app.
Qed.

Lemma tail_only_lift_Ret {R S : Type} (r : R) (f : R → Prog S) :
  tail_only_lift (f r) → tail_only_lift (Ret r ≫= f).
Proof. intros Hf. exact Hf. Qed.

Lemma quiet_lift_bind {R S : Type} (p : Prog R) (f : R → Prog S) :
  quiet_lift p → (∀ r, quiet_lift (f r)) → quiet_lift (p ≫= f).
Proof.
  intros Hp Hf. rewrite serve_lift, run_bind. rewrite serve_lift in Hp.
  destruct (run (restrict world) p) as [trace [r|]]; cbn [fst] in *; [|done].
  specialize (Hf r). rewrite serve_lift in Hf.
  destruct (run (restrict world) (f r)) as [trace' out]. cbn [fst] in *.
  rewrite fmap_app, forallb_app. by rewrite Hp, Hf.
Qed.

Lemma quiet_lift_get_uuids ids_raw : quiet_lift (get_uuids ids_raw).
Proof.
  induction ids_raw as [|e_id rest IH]; [done|].
  change (get_uuids (e_id :: rest)) with
    (Call (get_uuid (of_str e_id))
       (fun u => get_uuids (EmployeeType:=EmployeeType) rest ≫= fun us => Ret (u :: us))).
  apply quiet_lift_Call; [done|]. intros u.
  by apply quiet_lift_bind.
Qed.

Lemma quiet_multiple_check_ids ids : quiet (multiple_check_ids ids).
Proof.
  induction ids as [|employee_id rest IH]; [done|].
  change (multiple_check_ids (employee_id :: rest)) with
    (Invoke (shared (get_uuid (of_str employee_id)))
       (fun _ => multiple_check_ids (EmployeeType:=EmployeeType) rest)).
  by apply quiet_Invoke.
Qed.

Lemma fired_types_no_call types_raw types :
  (∃ types', fired_types EmployeeType_call types_raw types = Ret types')
  ∨ (∃ code description,
       fired_types EmployeeType_call types_raw types = Abort code description).
Proof.
  revert types. induction types_raw as [|employee_type rest IH]; intros types; simpl.
  - left. by eexists.
  - destruct (EmployeeType_call employee_type); [done|]. right. by eexists _, _.
Qed.

Ltac tail_only_steps :=
  repeat first
    [ apply tail_only_lift_Call; [reflexivity|intros ?]
    | apply tail_only_Invoke; [reflexivity|intros ?] ];
  first
    [ apply tail_only_lift_last; intros ?; reflexivity
    | apply tail_only_last; intros ?; reflexivity
    | reflexivity
    | idtac ].

(** X12: in every handler of the two modules, however the collaborators
    answer, no call follows a call to a service: a request makes at most
    one service call, after all its checks. *)
Theorem no_call_follows_a_service_call request payload create :
  let handled (R : Type) (h : Handler R) := tail_only h in
  handled _ (Employee_get request)
  ∧ handled _ (Employee_put request payload)
  ∧ handled _ (Employee_post payload)
  ∧ handled _ (Auth_post payload)
  ∧ handled _ EmployeeId_get
  ∧ handled _ (lift AuthRefresh_post)
  ∧ handled _ (lift (AuthRefresh_get_fired EmployeeType_call request))
  ∧ handled _ AuthRefresh_get_multiple
  ∧ handled _ (lift (Post_post create))
  ∧ handled _ (Post_put request payload)
  ∧ handled _ (Post_get request)
  ∧ handled _ (Post_delete request)
  ∧ handled _ (lift (ApprovePost_post request))
  ∧ handled _ (lift (ApprovePost_delete request))
  ∧ handled _ (lift (ApprovePost_post_return request))
  ∧ handled _ (lift (ApprovePost_post_reject request))
  ∧ handled _ (lift (ArchivePost_post request))
  ∧ handled _ (lift (ArchivePost_get request))
  ∧ handled _ (lift (ArchivePost_delete request))
  ∧ handled _ (lift (Post_get_of_employee request))
  ∧ handled _ (lift (PostStat_get request))
  ∧ handled _ (lift (PostModeration_get request)).
Proof.
  cbv zeta. repeat split.
  - tail_only_steps.
  - tail_only_steps.
  - tail_only_steps.
  - tail_only_steps.
  - tail_only_steps.
  - tail_only_steps.
  - tail_only_steps.
    match goal with
    | |- context [fired_types _ ?types_raw ∅] =>
        destruct (fired_types_no_call types_raw ∅)
          as [[types Heq]|(code & description & Heq)]
    end; unfold AuthRefresh_get_fired; rewrite ?Heq; tail_only_steps.
  - tail_only_steps. apply tail_only_bind; [apply quiet_multiple_check_ids|].
    intros _. tail_only_steps.
  - tail_only_steps.
  - tail_only_steps.
  - tail_only_steps.
  - tail_only_steps.
  - tail_only_steps.
  - tail_only_steps.
  - tail_only_steps.
  - tail_only_steps.
  - tail_only_steps.
  - tail_only_steps.
  - tail_only_steps.
    destruct (PostStatus_getitem _) as [new_status|]; [|reflexivity].
    destruct (decide (new_status = archived)); [reflexivity|]. tail_only_steps.
  - tail_only_steps.
  - tail_only_steps.
    destruct (forallb isdigit _); cbn [negb]; [|reflexivity].
    apply tail_only_lift_bind.
    { match goal with
      | |- context [if ?filtered then get_uuids _ ≫= _ else _] => destruct filtered
      end; [|reflexivity].
      apply quiet_lift_bind; [apply quiet_lift_get_uuids|done]. }
    intros subunit_ids. unfold int_or_raise.
    destruct (int (args_get request "start_year" "")); [|reflexivity].
    destruct (int (args_get request "start_month" "")); [|reflexivity].
    destruct (int (args_get request "end_year" "")); [|reflexivity].
    destruct (int (args_get request "end_month" "")); [|reflexivity].
    do 4 apply tail_only_lift_Ret. tail_only_steps.
  - tail_only_steps.
    match goal with
    | |- context [moderation_statuses ?statuses_raw ∅] =>
        destruct (moderation_statuses_no_call (EmployeeType:=EmployeeType) statuses_raw ∅)
          as [[statuses Heq]|(code & description & Heq)]
    end; rewrite Heq; tail_only_steps.
Qed.

End OneWorld.

End MoreProperties.

(** ** The remaining handlers on the small organisation *)

Section MoreOnTheOrganisation.

#[local] Existing Instance demo_unicode.

(** Without a token, reading an employee ends at the token check. *)
Lemma token_check_comes_first_witness :
  serve (demo_world (demo_no_token_env demo_moderate)) (Employee_get demo_moderate) =
  ([Inv (shared verify_jwt_in_request)], Aborted 401 "Missing Authorization Header").
Proof.
  exact (proj1 (proj1 (token_check_comes_first DemoType_call
                         (demo_world (demo_no_token_env demo_moderate)) demo_moderate
                         [] demo_create 401 "Missing Authorization Header") eq_refl)).
Defined.

(** [ids=e-1,not-an-id,e-2] stops at the second ID. *)
Lemma AuthRefresh_get_multiple_checks_ids_witness :
  serve (demo_world (demo_strict_env demo_multiple_bad)) AuthRefresh_get_multiple =
  ([Inv (shared verify_jwt_in_request); Inv (shared (query_param_to_set "ids"));
    Inv (shared (get_uuid (of_str "e-1"))); Inv (shared (get_uuid (of_str "not-an-id")))],
   Aborted 400 "Invalid ID").
Proof.
  apply (proj2 (AuthRefresh_get_multiple_checks_ids
                  (demo_world (demo_strict_env demo_multiple_bad))
                  ["e-1"; "not-an-id"; "e-2"]%string eq_refl eq_refl)
           ["e-1"]%string "not-an-id"%string ["e-2"]%string 400 "Invalid ID"%string);
    [reflexivity| |reflexivity].
  intros x Hin. apply list_elem_of_singleton in Hin as ->. by eexists.
Defined.

(** [ids=s-1,not-an-id] stops the statistics at the second ID. *)
Lemma PostStat_get_rejected_id_witness :
  run (demo_strict_env demo_statistics_bad_id) (PostStat_get demo_statistics_bad_id) =
  ([Ev verify_jwt_in_request; Ev (query_param_to_set "ids");
    Ev (get_uuid (of_str "s-1")); Ev (get_uuid (of_str "not-an-id"))],
   Aborted 400 "Invalid ID").
Proof.
  apply (PostStat_get_rejected_id (demo_strict_env demo_statistics_bad_id)
           demo_statistics_bad_id ["s-1"]%string "not-an-id"%string [] 400
           "Invalid ID"%string eq_refl eq_refl);
    [reflexivity| | |reflexivity].
  - intros Hin. apply elem_of_cons in Hin as [Hin|Hin]; [discriminate|].
    apply list_elem_of_singleton in Hin. discriminate.
  - intros x Hin. apply list_elem_of_singleton in Hin as ->. by eexists.
Defined.

(** [reverse=false] asks for forward order. *)
Lemma PostModeration_get_reverse_witness :
  ∃ statuses reverse,
    run (demo_env demo_moderation_forward) (PostModeration_get demo_moderation_forward) =
    ([Ev verify_jwt_in_request; Ev (query_param_to_set "statuses");
      Ev get_jwt_identity; Ev (get_page demo_moderation_forward);
      Ev (get_all_posts "e-1" 1 statuses reverse)],
     with_code 200 (demo_env demo_moderation_forward _
                      (get_all_posts "e-1" 1 statuses reverse)))
    ∧ (reverse = true ↔
       assoc "reverse" (args demo_moderation_forward) = None
       ∨ assoc "reverse" (args demo_moderation_forward) = Some "true"%string).
Proof.
  apply (PostModeration_get_reverse (demo_env demo_moderation_forward)
           demo_moderation_forward ["posted"]%string "e-1"%string 1 eq_refl eq_refl);
    [|reflexivity|reflexivity].
  intros s Hin _. apply list_elem_of_singleton in Hin as ->. by exists posted.
Defined.

(** Without [statuses], the moderation listing asks for no status. *)
Lemma PostModeration_get_no_status_named_witness :
  run (demo_env demo_of_employee) (PostModeration_get demo_of_employee) =
  ([Ev verify_jwt_in_request; Ev (query_param_to_set "statuses");
    Ev get_jwt_identity; Ev (get_page demo_of_employee);
    Ev (get_all_posts "e-1" 1 ∅ true)],
   Returned (mkCountedPosts [] 0, 200)).
Proof.
  apply (PostModeration_get_no_status_named (demo_env demo_of_employee)
           demo_of_employee [""]%string "e-1"%string 1 eq_refl eq_refl);
    [|reflexivity|reflexivity].
  intros s Hin. by apply list_elem_of_singleton in Hin.
Defined.

(** The same statuses in another order, one of them twice. *)
Lemma moderation_statuses_order_independent_witness :
  (∃ statuses : gset PostStatus,
     moderation_statuses (EmployeeType:=DemoType) ["posted"; "rejected"]%string ∅ =
     Ret statuses
     ∧ moderation_statuses (EmployeeType:=DemoType)
         ["rejected"; "posted"; "posted"]%string ∅ = Ret statuses)
  ∨ (∃ s s',
       (s ∈ ["posted"; "rejected"]%string ∧ s ≠ ""%string
        ∧ PostStatus_getitem s = None)
       ∧ (s' ∈ ["posted"; "rejected"]%string ∧ s' ≠ ""%string
          ∧ PostStatus_getitem s' = None)
       ∧ moderation_statuses (EmployeeType:=DemoType) ["posted"; "rejected"]%string ∅ =
         Abort 422 ("Incorrect status value '" ++ s ++ "'")%string
       ∧ moderation_statuses (EmployeeType:=DemoType)
           ["rejected"; "posted"; "posted"]%string ∅ =
         Abort 422 ("Incorrect status value '" ++ s' ++ "'")%string).
Proof.
  apply (moderation_statuses_order_independent (EmployeeType:=DemoType)
           ["posted"; "rejected"]%string ["rejected"; "posted"; "posted"]%string).
  intros s. rewrite !elem_of_cons, !elem_of_nil. tauto.
Defined.

(** The same types in another order. *)
Lemma fired_types_order_independent_witness :
  (∃ types : gset DemoType,
     fired_types DemoType_call ["admin"; "user"]%string ∅ = Ret types
     ∧ fired_types DemoType_call ["user"; "admin"]%string ∅ = Ret types)
  ∨ (∃ t t',
       (t ∈ ["admin"; "user"]%string ∧ DemoType_call t = None)
       ∧ (t' ∈ ["admin"; "user"]%string ∧ DemoType_call t' = None)
       ∧ fired_types DemoType_call ["admin"; "user"]%string ∅ =
         Abort 400 ("Incorrect employee type '" ++ t ++ "'")%string
       ∧ fired_types DemoType_call ["user"; "admin"]%string ∅ =
         Abort 400 ("Incorrect employee type '" ++ t' ++ "'")%string).
Proof.
  apply (fired_types_order_independent DemoType_call
           ["admin"; "user"]%string ["user"; "admin"]%string).
  intros t. rewrite !elem_of_cons, !elem_of_nil. tauto.
Defined.

(** [start_month=-1] is stopped at the date check; the dates 2020-11 to
    2020-12 are not. *)
Lemma PostStat_get_date_gate_witness :
  (run (demo_env demo_statistics_negative) (PostStat_get demo_statistics_negative) =
   ([Ev verify_jwt_in_request; Ev (query_param_to_set "ids")],
    Aborted 400 "Date values must be integers")
   ↔ ∃ param,
       param ∈ ["start_year"; "start_month"; "end_year"; "end_month"]%string
       ∧ (args_get demo_statistics_negative param "" = ""%string
          ∨ ∃ c, c ∈ decode_utf8 (args_get demo_statistics_negative param "")
                 ∧ numeric_type c = NoDigit))
  ∧ ∃ e trace,
      (run (demo_env demo_statistics) (PostStat_get demo_statistics)).1 =
      Ev verify_jwt_in_request :: Ev (query_param_to_set "ids") :: e :: trace.
Proof.
  split.
  - exact (proj1 (PostStat_get_date_gate (demo_env demo_statistics_negative)
                    demo_statistics_negative [""]%string eq_refl eq_refl)).
  - exact (proj2 (PostStat_get_date_gate (demo_env demo_statistics)
                    demo_statistics ["s-1"]%string eq_refl eq_refl) eq_refl).
Defined.

(** Unarchiving post [p-7] to [posted] runs as approving it does. *)
Lemma unarchive_runs_as_the_dedicated_action_witness :
  run (demo_env demo_unarchive_posted) (ArchivePost_delete demo_unarchive_posted) =
  run (demo_env demo_unarchive_posted) (ApprovePost_post demo_unarchive_posted).
Proof.
  exact (proj1 (unarchive_runs_as_the_dedicated_action (demo_env demo_unarchive_posted)
                  demo_unarchive_posted) eq_refl).
Defined.

(** [archived] is not among the documented values, and is stopped. *)
Lemma documented_statuses_are_the_accepted_ones_witness :
  args_get demo_unarchive_archived "status" "" ∉ unarchive_status_enum ↔
  run (demo_env demo_unarchive_archived) (ArchivePost_delete demo_unarchive_archived) =
  ([Ev verify_jwt_in_request], Aborted 400 "Incorrect status value").
Proof.
  exact (proj1 (documented_statuses_are_the_accepted_ones
                  (demo_env demo_unarchive_archived) demo_unarchive_archived
                  ["posted"]%string eq_refl)).
Defined.

End MoreOnTheOrganisation.
